(** * PCA9532: a shallow embedding of the Arduino driver

    The development follows [src/PCA9532.h] and [src/PCA9532.cpp].

    - [uint8_t] values are integers of [Z]; every place where the C++
      code stores an [int] into a [uint8_t] is written out as [u8].
    - The driver object is the record [PCA9532], one field per data
      member.  [_wire] is a pointer: it is modelled as an optional key
      into a store of transport objects.
    - The I2C transport ([TwoWire], from the Arduino core) is not part of
      the driver; it is an interface ([TwoWire] class below) and the
      driver is written against it.  [Chip.Bus] is one implementation: a
      bus with a single register-file slave, used where a statement talks
      about the content of the chip's registers.
    - Member functions are computations of the monad [M]: they thread the
      driver object, the store of transports and the list of transport
      calls made so far, and fail ([None]) when [_wire] does not point to
      a transport (the C++ code dereferences it unchecked). *)

From Stdlib Require Import ZArith List Lia Bool.
From stdpp Require Import base option list gmap.

Local Open Scope Z_scope.

(** ** Bytes *)

(** Conversion of an [int] to [uint8_t]: reduction modulo 2^8. *)
Definition u8 (z : Z) : Z := z mod 256.

Definition is_u8 (z : Z) : Prop := 0 <= z < 256.

(** ** Constants of [PCA9532.h] *)

Definition REG_INPUT0 : Z := 0x00.
Definition REG_INPUT1 : Z := 0x01.
Definition REG_PSC0 : Z := 0x02.
Definition REG_PWM0 : Z := 0x03.
Definition REG_PSC1 : Z := 0x04.
Definition REG_PWM1 : Z := 0x05.
Definition REG_LS0 : Z := 0x06.
Definition REG_LS1 : Z := 0x07.
Definition REG_LS2 : Z := 0x08.
Definition REG_LS3 : Z := 0x09.

Definition BIT_LS_LED3 : Z := 6.
Definition BIT_LS_LED2 : Z := 4.
Definition BIT_LS_LED1 : Z := 2.
Definition BIT_LS_LED0 : Z := 0.
Definition BIT_LS_LED7 : Z := 6.
Definition BIT_LS_LED6 : Z := 4.
Definition BIT_LS_LED5 : Z := 2.
Definition BIT_LS_LED4 : Z := 0.
Definition BIT_LS_LED11 : Z := 6.
Definition BIT_LS_LED10 : Z := 4.
Definition BIT_LS_LED9 : Z := 2.
Definition BIT_LS_LED8 : Z := 0.
Definition BIT_LS_LED15 : Z := 6.
Definition BIT_LS_LED14 : Z := 4.
Definition BIT_LS_LED13 : Z := 2.
Definition BIT_LS_LED12 : Z := 0.

Definition LS_STATE_OFF : Z := 0x00.
Definition LS_STATE_ON : Z := 0x01.
Definition LS_STATE_BLNK0 : Z := 0x02.
Definition LS_STATE_BLNK1 : Z := 0x03.

Definition BLINKING_PERIOD_1_S : Z := 151.

(** ** The driver object *)

(** A [TwoWire *]: the key of a transport object in the store. *)
Definition ptr : Type := nat.

Record PCA9532 : Type := mkPCA9532 {
  _regPwm1 : Z;
  _regPwm2 : Z;
  _storedRegLs0 : Z;
  _storedRegLs1 : Z;
  _storedRegLs2 : Z;
  _storedRegLs3 : Z;
  _deviceAddress : Z;
  _wire : option ptr
}.

(** The constructor assigns [_regPwm1] and [_regPwm2] and nothing else
    (it has no member initialisers): every other member keeps what the
    object's storage held, which is the argument [storage].  *)
Definition PCA9532_new (storage : PCA9532) (regPwm1 regPwm2 : Z) : PCA9532 :=
  {| _regPwm1 := regPwm1;
     _regPwm2 := regPwm2;
     _storedRegLs0 := _storedRegLs0 storage;
     _storedRegLs1 := _storedRegLs1 storage;
     _storedRegLs2 := _storedRegLs2 storage;
     _storedRegLs3 := _storedRegLs3 storage;
     _deviceAddress := _deviceAddress storage;
     _wire := _wire storage |}.

(** Storage of an object with static storage duration: C++ zero-initialises
    it before the constructor runs (null pointer, zero bytes). *)
Definition zero_storage : PCA9532 :=
  {| _regPwm1 := 0; _regPwm2 := 0;
     _storedRegLs0 := 0; _storedRegLs1 := 0;
     _storedRegLs2 := 0; _storedRegLs3 := 0;
     _deviceAddress := 0; _wire := None |}.

(** ** The transport interface *)

(** The operations of [TwoWire] the driver calls.  [endTransmission] and
    [requestFrom] return a status and a count that the driver discards;
    [available] and [read] return an [int]. *)
Class TwoWire (W : Type) : Type := {
  tw_begin : W -> W;
  tw_beginTransmission : Z -> W -> W;
  tw_write : Z -> W -> W;
  tw_endTransmission : W -> Z * W;
  tw_requestFrom : Z -> Z -> W -> Z * W;
  tw_available : W -> Z;
  tw_read : W -> Z * W
}.

(** One call on the transport, with its arguments and, for the calls whose
    result the driver uses, the result. *)
Inductive WireCall : Type :=
| CBegin
| CBeginTransmission (address : Z)
| CWrite (data : Z)
| CEndTransmission
| CRequestFrom (address quantity : Z)
| CAvailable (result : Z)
| CRead (result : Z).

(** The calls of one [writeReg] and of one [readReg]; [avail] is what
    [available()] answered and [b] what [read()] returned. *)
Definition writeTx (dev reg data : Z) : list WireCall :=
  [CBeginTransmission dev; CWrite reg; CWrite data; CEndTransmission].

Definition readTx (dev reg avail b : Z) : list WireCall :=
  [CBeginTransmission dev; CWrite reg; CEndTransmission;
   CRequestFrom dev 1; CAvailable avail]
  ++ (if avail =? 1 then [CRead b] else []).

(** The register addresses put on the bus: the byte written first in each
    transmission. *)
Fixpoint regAddrs (t : list WireCall) : list Z :=
  match t with
  | [] => []
  | CBeginTransmission _ :: t' =>
      match t' with
      | CWrite r :: _ => r :: regAddrs t'
      | _ => regAddrs t'
      end
  | _ :: t' => regAddrs t'
  end.

(** The register writes on the bus: transmissions of exactly two bytes,
    as (register, data). *)
Fixpoint regWrites (t : list WireCall) : list (Z * Z) :=
  match t with
  | [] => []
  | CBeginTransmission _ :: t' =>
      match t' with
      | CWrite r :: CWrite d :: CEndTransmission :: _ => (r, d) :: regWrites t'
      | _ => regWrites t'
      end
  | _ :: t' => regWrites t'
  end.

(** ** The monad of member functions *)

Declare Scope drv_scope.
Delimit Scope drv_scope with drv.

Section Driver.

Context {W : Type} `{TwoWire W}.

(** What a member function can touch: the driver object ([this]), the
    transport objects the program owns, and the calls made on them. *)
Record World : Type := mkWorld {
  self : PCA9532;
  wires : gmap ptr W;
  trace : list WireCall
}.

Definition M (A : Type) : Type := World -> option (A * World).

Definition ret {A : Type} (a : A) : M A := fun s => Some (a, s).

Definition bind {A B : Type} (c : M A) (k : A -> M B) : M B :=
  fun s => match c s with
           | Some (a, s') => k a s'
           | None => None
           end.

Notation "x <- c ;; k" := (bind c (fun x => k))
  (at level 100, c at next level, right associativity) : drv_scope.
Notation "c ;;; k" := (bind c (fun _ => k))
  (at level 100, right associativity) : drv_scope.

Local Open Scope drv_scope.

(** Reading a data member, and assigning one. *)
Definition member {A : Type} (f : PCA9532 -> A) : M A :=
  fun s => Some (f (self s), s).

Definition assign (f : PCA9532 -> PCA9532) : M unit :=
  fun s => Some (tt, mkWorld (f (self s)) (wires s) (trace s)).

Definition set_storedRegLs0 (v : Z) (d : PCA9532) : PCA9532 :=
  mkPCA9532 (_regPwm1 d) (_regPwm2 d) v (_storedRegLs1 d)
            (_storedRegLs2 d) (_storedRegLs3 d) (_deviceAddress d) (_wire d).
Definition set_storedRegLs1 (v : Z) (d : PCA9532) : PCA9532 :=
  mkPCA9532 (_regPwm1 d) (_regPwm2 d) (_storedRegLs0 d) v
            (_storedRegLs2 d) (_storedRegLs3 d) (_deviceAddress d) (_wire d).
Definition set_storedRegLs2 (v : Z) (d : PCA9532) : PCA9532 :=
  mkPCA9532 (_regPwm1 d) (_regPwm2 d) (_storedRegLs0 d) (_storedRegLs1 d)
            v (_storedRegLs3 d) (_deviceAddress d) (_wire d).
Definition set_storedRegLs3 (v : Z) (d : PCA9532) : PCA9532 :=
  mkPCA9532 (_regPwm1 d) (_regPwm2 d) (_storedRegLs0 d) (_storedRegLs1 d)
            (_storedRegLs2 d) v (_deviceAddress d) (_wire d).
Definition set_deviceAddress (v : Z) (d : PCA9532) : PCA9532 :=
  mkPCA9532 (_regPwm1 d) (_regPwm2 d) (_storedRegLs0 d) (_storedRegLs1 d)
            (_storedRegLs2 d) (_storedRegLs3 d) v (_wire d).
Definition set_wire (v : option ptr) (d : PCA9532) : PCA9532 :=
  mkPCA9532 (_regPwm1 d) (_regPwm2 d) (_storedRegLs0 d) (_storedRegLs1 d)
            (_storedRegLs2 d) (_storedRegLs3 d) (_deviceAddress d) v.

(** [_wire->f(...)]: dereference [_wire], run [f] on the transport it
    points to, record the call.  No transport there: no behaviour. *)
Definition call {A : Type} (f : W -> A * W) (ev : A -> WireCall) : M A :=
  fun s =>
    match _wire (self s) with
    | None => None
    | Some p =>
        match wires s !! p with
        | None => None
        | Some w =>
            let (a, w') := f w in
            Some (a, mkWorld (self s) (<[p := w']> (wires s))
                             (trace s ++ [ev a]))
        end
    end.

Definition wire_begin : M unit :=
  call (fun w => (tt, tw_begin w)) (fun _ => CBegin).
Definition wire_beginTransmission (address : Z) : M unit :=
  call (fun w => (tt, tw_beginTransmission address w))
       (fun _ => CBeginTransmission address).
Definition wire_write (data : Z) : M unit :=
  call (fun w => (tt, tw_write data w)) (fun _ => CWrite data).
Definition wire_endTransmission : M Z :=
  call tw_endTransmission (fun _ => CEndTransmission).
Definition wire_requestFrom (address quantity : Z) : M Z :=
  call (tw_requestFrom address quantity)
       (fun _ => CRequestFrom address quantity).
Definition wire_available : M Z :=
  call (fun w => (tw_available w, w)) CAvailable.
Definition wire_read : M Z :=
  call tw_read CRead.

(** ** Private methods *)

Definition writeReg (registerAddress data : Z) : M unit :=
  dev <- member _deviceAddress ;;
  wire_beginTransmission dev ;;;
  wire_write registerAddress ;;;
  wire_write data ;;;
  wire_endTransmission ;;;
  ret tt.

(** The function returns [uint8_t]: both [_wire->read()] (an [int]) and
    the literal [-1] are converted on return. *)
Definition readReg (registerAddress : Z) : M Z :=
  dev <- member _deviceAddress ;;
  wire_beginTransmission dev ;;;
  wire_write registerAddress ;;;
  wire_endTransmission ;;;
  wire_requestFrom dev 1 ;;;
  n <- wire_available ;;
  if n =? 1 then
    b <- wire_read ;;
    ret (u8 b)
  else
    ret (u8 (-1)).

(** ** Public methods *)

Definition begin (deviceAddress : Z) (wire : ptr) : M unit :=
  assign (set_deviceAddress deviceAddress) ;;;
  assign (set_wire (Some wire)) ;;;
  wire_begin.

Definition turnOn : M unit :=
  v0 <- member _storedRegLs0 ;; writeReg REG_LS0 v0 ;;;
  v1 <- member _storedRegLs1 ;; writeReg REG_LS1 v1 ;;;
  v2 <- member _storedRegLs2 ;; writeReg REG_LS2 v2 ;;;
  v3 <- member _storedRegLs3 ;; writeReg REG_LS3 v3.

Definition turnOff : M unit :=
  v0 <- readReg REG_LS0 ;; assign (set_storedRegLs0 v0) ;;;
  writeReg REG_LS0 LS_STATE_OFF ;;;
  v1 <- readReg REG_LS1 ;; assign (set_storedRegLs1 v1) ;;;
  writeReg REG_LS1 LS_STATE_OFF ;;;
  v2 <- readReg REG_LS2 ;; assign (set_storedRegLs2 v2) ;;;
  writeReg REG_LS2 LS_STATE_OFF ;;;
  v3 <- readReg REG_LS3 ;; assign (set_storedRegLs3 v3) ;;;
  writeReg REG_LS3 LS_STATE_OFF.

Definition setPwm (regPwm pwm : Z) : M unit :=
  writeReg regPwm pwm.

Definition setGrpPwm (pwm : Z) : M unit :=
  writeReg REG_PWM0 pwm ;;;
  writeReg REG_PWM1 pwm.

Definition setBlinking (regPsc blinkPeriod : Z) : M unit :=
  writeReg regPsc blinkPeriod.

(** The byte [setLsState] writes back, from the byte it read.  The
    operands of [<<], [~], [&] and [|] are promoted to [int]; the two
    stores into [newReg] convert back to [uint8_t].  The shifts are
    taken in [Z]: for a byte [state] and a shift count from 0 to 7 (see
    [shift_defined]) neither shift leaves a 16-bit [int] and the result is
    the one of the C++ expression.  Outside this range the C++ shifts can
    overflow or be undefined, and the definition stands for nothing. *)
Definition newRegLs (prevReg state lsBit : Z) : Z :=
  let newReg := u8 (Z.land prevReg (Z.lnot (Z.shiftl 3 lsBit))) in
  u8 (Z.lor newReg (Z.shiftl state lsBit)).

Definition setLsState (state regLs lsBit : Z) : M unit :=
  prevReg <- readReg regLs ;;
  writeReg regLs (newRegLs prevReg state lsBit).

(** The byte [setLsStateAll] builds for one LS register out of the four
    bit offsets of its LEDs. *)
Definition allLsReg (state b3 b2 b1 b0 : Z) : Z :=
  u8 (Z.lor (Z.lor (Z.lor (Z.shiftl state b3) (Z.shiftl state b2))
                   (Z.shiftl state b1))
            (Z.shiftl state b0)).

Definition setLsStateAll (state : Z) : M unit :=
  writeReg REG_LS0
    (allLsReg state BIT_LS_LED3 BIT_LS_LED2 BIT_LS_LED1 BIT_LS_LED0) ;;;
  writeReg REG_LS1
    (allLsReg state BIT_LS_LED7 BIT_LS_LED6 BIT_LS_LED5 BIT_LS_LED4) ;;;
  writeReg REG_LS2
    (allLsReg state BIT_LS_LED11 BIT_LS_LED10 BIT_LS_LED9 BIT_LS_LED8) ;;;
  writeReg REG_LS3
    (allLsReg state BIT_LS_LED15 BIT_LS_LED14 BIT_LS_LED13 BIT_LS_LED12).

(** ** Programs: sequences of calls of the public methods *)

Inductive Op : Type :=
| OpBegin (deviceAddress : Z) (wire : ptr)
| OpTurnOn
| OpTurnOff
| OpSetPwm (regPwm pwm : Z)
| OpSetGrpPwm (pwm : Z)
| OpSetBlinking (regPsc blinkPeriod : Z)
| OpSetLsState (state regLs lsBit : Z)
| OpSetLsStateAll (state : Z).

Definition exec (o : Op) : M unit :=
  match o with
  | OpBegin a p => begin a p
  | OpTurnOn => turnOn
  | OpTurnOff => turnOff
  | OpSetPwm r v => setPwm r v
  | OpSetGrpPwm v => setGrpPwm v
  | OpSetBlinking r v => setBlinking r v
  | OpSetLsState st r b => setLsState st r b
  | OpSetLsStateAll st => setLsStateAll st
  end.

Fixpoint run (os : list Op) : M unit :=
  match os with
  | [] => ret tt
  | o :: os' => exec o ;;; run os'
  end.

End Driver.

Arguments World W : clear implicits.
Arguments M W A : clear implicits.

Notation "x <- c ;; k" := (bind c (fun x => k))
  (at level 100, c at next level, right associativity) : drv_scope.
Notation "c ;;; k" := (bind c (fun _ => k))
  (at level 100, right associativity) : drv_scope.

(** ** A transport with one PCA9532 behind it *)

(** The environment of the driver, for the statements about register
    contents: a [TwoWire] object whose bus has a single slave, a register
    file that follows the chip's protocol as the driver uses it.  A
    transmission to the slave's address selects the register named by its
    first byte and stores each following byte there; a request delivers the
    selected register.  [script] lets a run decide how many bytes each
    successive [requestFrom] delivers (a read fails when it is not one);
    once the script is used up every request delivers what was asked.
    The register file stands for the writable registers 0x02..0x09 (see
    [writable_reg]); it also stores at other addresses, where the chip
    has read-only inputs or nothing: no meaning is attached to that. *)
Module Chip.

Record Bus : Type := mkBus {
  slaveAddress : Z;
  regs : gmap Z Z;
  pointer : Z;
  txAddress : Z;
  txBuffer : list Z;
  rxBuffer : list Z;
  script : list nat
}.

(** Content of a register; registers never written hold 0. *)
Definition reg (b : Bus) (r : Z) : Z := default 0 (regs b !! r).

Definition bus_begin (b : Bus) : Bus :=
  mkBus (slaveAddress b) (regs b) (pointer b) (txAddress b) [] []
        (script b).

Definition beginTransmission (address : Z) (b : Bus) : Bus :=
  mkBus (slaveAddress b) (regs b) (pointer b) address [] (rxBuffer b)
        (script b).

Definition write (data : Z) (b : Bus) : Bus :=
  mkBus (slaveAddress b) (regs b) (pointer b) (txAddress b)
        (txBuffer b ++ [u8 data]) (rxBuffer b) (script b).

Definition endTransmission (b : Bus) : Z * Bus :=
  if txAddress b =? slaveAddress b then
    match txBuffer b with
    | [] => (0, b)
    | r :: ds =>
        (0, mkBus (slaveAddress b)
                  (fold_left (fun m d => <[r := d]> m) ds (regs b))
                  r (txAddress b) [] (rxBuffer b) (script b))
    end
  else
    (2, mkBus (slaveAddress b) (regs b) (pointer b) (txAddress b) []
              (rxBuffer b) (script b)).

Definition requestFrom (address quantity : Z) (b : Bus) : Z * Bus :=
  let k := if address =? slaveAddress b then
             match script b with
             | [] => Z.to_nat quantity
             | k :: _ => k
             end
           else 0%nat in
  (Z.of_nat k,
   mkBus (slaveAddress b) (regs b) (pointer b) (txAddress b) (txBuffer b)
         (repeat (reg b (pointer b)) k) (tail (script b))).

Definition available (b : Bus) : Z := Z.of_nat (length (rxBuffer b)).

Definition read (b : Bus) : Z * Bus :=
  match rxBuffer b with
  | [] => (-1, b)
  | x :: rx =>
      (x, mkBus (slaveAddress b) (regs b) (pointer b) (txAddress b)
                (txBuffer b) rx (script b))
  end.

#[export] Instance Bus_TwoWire : TwoWire Bus := {
  tw_begin := bus_begin;
  tw_beginTransmission := beginTransmission;
  tw_write := write;
  tw_endTransmission := endTransmission;
  tw_requestFrom := requestFrom;
  tw_available := available;
  tw_read := read
}.

(** A powered-up bus: the chip at [address] with registers [rs]. *)
Definition fresh (address : Z) (rs : gmap Z Z) (sc : list nat) : Bus :=
  mkBus address rs 0 0 [] [] sc.

End Chip.

Export Chip.

(** ** Vocabulary of the statements *)

Section Vocabulary.

Context {W : Type} `{TwoWire W}.

(** [_wire] points to the transport [w]: [begin] has been called. *)
Definition ready (s : World W) (p : ptr) (w : W) : Prop :=
  _wire (self s) = Some p /\ wires s !! p = Some w.

Definition connected (s : World W) : Prop :=
  exists p w, ready s p w.

(** A call that has defined behaviour in [s]: [begin] needs a pointer to
    a transport, every other method needs [begin] to have run. *)
Definition runnable (s : World W) (o : Op) : Prop :=
  match o with
  | OpBegin _ q => is_Some (wires s !! q)
  | _ => connected s
  end.

(** The four saved LS bytes of the driver object. *)
Definition stored (d : PCA9532) : list Z :=
  [_storedRegLs0 d; _storedRegLs1 d; _storedRegLs2 d; _storedRegLs3 d].

(** What one [writeReg] does to the transport. *)
Definition bus_writeReg (dev r v : Z) (w : W) : W :=
  snd (tw_endTransmission
         (tw_write v (tw_write r (tw_beginTransmission dev w)))).

(** The transport at the moment [readReg] asks [available()]. *)
Definition bus_select (dev r : Z) (w : W) : W :=
  snd (tw_requestFrom dev 1
         (snd (tw_endTransmission
                 (tw_write r (tw_beginTransmission dev w))))).

(** What one [readReg] returns and does to the transport. *)
Definition bus_readReg (dev r : Z) (w : W) : Z * W :=
  let w2 := bus_select dev r w in
  if tw_available w2 =? 1
  then (u8 (fst (tw_read w2)), snd (tw_read w2))
  else (u8 (-1), w2).

(** A world whose driver points to [p], shown with the transport there. *)
Definition focus (d : PCA9532) (m : gmap ptr W) (p : ptr) (w : W)
           (t : list WireCall) : World W :=
  mkWorld d (<[p := w]> m) t.

End Vocabulary.

(** The ten registers of the chip's map. *)
Definition in_map (r : Z) : Prop := 0x00 <= r <= 0x09.

(** One of the [BIT_LS_*] offsets. *)
Definition ls_offset (lsBit : Z) : Prop :=
  lsBit = 0 \/ lsBit = 2 \/ lsBit = 4 \/ lsBit = 6.

(** One of the four [LS_STATE_*] values. *)
Definition ls_state (state : Z) : Prop := 0 <= state <= 3.

(** The mask of the two-bit field at [lsBit], as the source writes it. *)
Definition field_mask (lsBit : Z) : Z := Z.shiftl 3 lsBit.

(** The register arguments a call passes on, if it has any, are in the map. *)
Definition regs_in_map (o : Op) : Prop :=
  match o with
  | OpSetPwm r _ => in_map r
  | OpSetBlinking r _ => in_map r
  | OpSetLsState _ r _ => in_map r
  | _ => True
  end.

Definition is_turnOff (o : Op) : bool :=
  match o with OpTurnOff => true | _ => false end.

Definition is_begin (o : Op) : bool :=
  match o with OpBegin _ _ => true | _ => false end.

(** A trace made of whole register transactions (and [begin] calls), with
    every register address satisfying [P]. *)
Inductive Transactions (P : Z -> Prop) : list WireCall -> Prop :=
| Tx_nil : Transactions P []
| Tx_begin t : Transactions P t -> Transactions P (CBegin :: t)
| Tx_write dev r v t :
    P r -> Transactions P t -> Transactions P (writeTx dev r v ++ t)
| Tx_read dev r n b t :
    P r -> Transactions P t -> Transactions P (readTx dev r n b ++ t).

(** The driver was begun on the chip's own address. *)
Definition attached (s : World Bus) (p : ptr) (b : Bus) : Prop :=
  ready s p b /\ _deviceAddress (self s) = slaveAddress b.

(** The next [n] requests on the bus each deliver exactly one byte. *)
Fixpoint deliver_one (n : nat) (sc : list nat) : bool :=
  match n, sc with
  | O, _ => true
  | S _, [] => true
  | S n', k :: sc' => Nat.eqb k 1 && deliver_one n' sc'
  end.

(** The LS registers of the chip, in order. *)
Definition ls_regs (b : Bus) : list Z :=
  [Chip.reg b REG_LS0; Chip.reg b REG_LS1; Chip.reg b REG_LS2;
   Chip.reg b REG_LS3].

(** ** A sketch to run the statements on *)

(** A chip at I2C address 0x60 with a pattern in its LS registers, behind
    the one transport object of the program (the global [Wire]). *)
Definition demo_regs : gmap Z Z :=
  <[REG_LS0 := 0x55]> (<[REG_LS1 := 0xA1]> (<[REG_LS2 := 0x03]>
    (<[REG_LS3 := 0xFF]> ∅))).

Definition demo_bus (sc : list nat) : Bus := Chip.fresh 0x60 demo_regs sc.

Definition Wire : ptr := 0%nat.

(** A global driver object, constructed but not begun. *)
Definition sketch (sc : list nat) : World Bus :=
  mkWorld (PCA9532_new zero_storage REG_PWM0 REG_PWM1)
          {[ Wire := demo_bus sc ]} [].

(** The same after [begin(0x60, &Wire)], with an empty trace. *)
Definition begun (sc : list nat) : World Bus :=
  mkWorld (mkPCA9532 REG_PWM0 REG_PWM1 0 0 0 0 0x60 (Some Wire))
          {[ Wire := demo_bus sc ]} [].

(** A driver object built in storage that held other data before. *)
Definition used_storage : PCA9532 :=
  mkPCA9532 0 0 0x55 0 0 0 0 None.

(** ** Further vocabulary *)

(** The two-bit state of the channel at offset [lsBit] of an LS byte. *)
Definition ls_field (reg lsBit : Z) : Z := Z.land (Z.shiftr reg lsBit) 3.

(** The I2C addresses the calls of a trace are directed to. *)
Fixpoint txAddrs (t : list WireCall) : list Z :=
  match t with
  | [] => []
  | CBeginTransmission a :: t' => a :: txAddrs t'
  | CRequestFrom a _ :: t' => a :: txAddrs t'
  | _ :: t' => txAddrs t'
  end.

(** The read requests of a trace. *)
Definition is_request (c : WireCall) : bool :=
  match c with CRequestFrom _ _ => true | _ => false end.

Fixpoint requests (t : list WireCall) : nat :=
  match t with
  | [] => O
  | c :: t' => if is_request c then S (requests t') else requests t'
  end.

(** A trace made of whole register transactions, each directed to [dev]. *)
Inductive TransactionsTo (dev : Z) : list WireCall -> Prop :=
| TxTo_nil : TransactionsTo dev []
| TxTo_write r v t :
    TransactionsTo dev t -> TransactionsTo dev (writeTx dev r v ++ t)
| TxTo_read r n b t :
    TransactionsTo dev t -> TransactionsTo dev (readTx dev r n b ++ t).

(** The driver object with other constructor arguments. *)
Definition with_regPwm (regPwm1 regPwm2 : Z) (d : PCA9532) : PCA9532 :=
  mkPCA9532 regPwm1 regPwm2 (_storedRegLs0 d) (_storedRegLs1 d)
            (_storedRegLs2 d) (_storedRegLs3 d) (_deviceAddress d) (_wire d).

(** How many bytes the next request on the bus delivers. *)
Definition delivered (sc : list nat) : nat :=
  match sc with [] => 1%nat | k :: _ => k end.

(** What [readReg] returns for a register holding [v] when the request
    delivers [k] bytes. *)
Definition read_byte (k : nat) (v : Z) : Z :=
  if Nat.eqb k 1 then u8 v else 0xFF.

(** The register writes and read requests one call of a method makes. *)
Definition writes_of (o : Op) : nat :=
  match o with
  | OpBegin _ _ => 0
  | OpTurnOn => 4
  | OpTurnOff => 4
  | OpSetPwm _ _ => 1
  | OpSetGrpPwm _ => 2
  | OpSetBlinking _ _ => 1
  | OpSetLsState _ _ _ => 1
  | OpSetLsStateAll _ => 4
  end%nat.

Definition requests_of (o : Op) : nat :=
  match o with
  | OpTurnOff => 4
  | OpSetLsState _ _ _ => 1
  | _ => 0
  end%nat.

(** The arguments for which the shifts of [setLsState] are defined on every
    target: [state] is a byte and the shift count is below 8, so that
    [state << lsBit] and [0b11 << lsBit] fit a 16-bit [int]. *)
Definition shift_defined (state lsBit : Z) : Prop :=
  is_u8 state /\ 0 <= lsBit < 8.

Definition shifts_defined (o : Op) : Prop :=
  match o with
  | OpSetLsState state _ lsBit => shift_defined state lsBit
  | _ => True
  end.

(** The registers of the chip's map that can be written and read back:
    PSC0, PWM0, PSC1, PWM1 and LS0..LS3. *)
Definition writable_reg (r : Z) : Prop := 0x02 <= r <= 0x09.

(** The world with the driver object built from other constructor
    arguments. *)
Definition rebuilt {W : Type} (regPwm1 regPwm2 : Z) (s : World W) : World W :=
  mkWorld (with_regPwm regPwm1 regPwm2 (self s)) (wires s) (trace s).

(** * Proofs *)

Local Open Scope drv_scope.

(** ** Bits of the written byte *)

Lemma testbit_small (k z n : Z) :
  0 <= k -> 0 <= z < 2 ^ k -> k <= n -> Z.testbit z n = false.
Proof.
  intros Hk Hz Hn. rewrite <- (Z.mod_small z (2 ^ k)) by lia.
  apply Z.mod_pow2_bits_high. lia.
Qed.

Lemma testbit_u8 (z n : Z) :
  Z.testbit (u8 z) n = (n <? 8) && Z.testbit z n.
Proof.
  unfold u8. change 256 with (2 ^ 8).
  destruct (Z.ltb_spec n 8) as [Hlt | Hge]; simpl.
  - destruct (Z.ltb_spec n 0) as [Hneg | Hpos].
    + now rewrite !Z.testbit_neg_r.
    + apply Z.mod_pow2_bits_low. lia.
  - apply Z.mod_pow2_bits_high. lia.
Qed.

Lemma testbit_shiftl (a k n : Z) :
  0 <= n -> Z.testbit (Z.shiftl a k) n = Z.testbit a (n - k).
Proof. intros Hn. now apply Z.shiftl_spec. Qed.

Lemma testbit_field_mask (lsBit n : Z) :
  0 <= n -> n - lsBit < 0 \/ 2 <= n - lsBit ->
  Z.testbit (field_mask lsBit) n = false.
Proof.
  intros Hn Hout. unfold field_mask. rewrite testbit_shiftl by lia.
  destruct Hout as [Hlo | Hhi].
  - now apply Z.testbit_neg_r.
  - apply (testbit_small 2); lia.
Qed.

Lemma newRegLs_bit (prevReg state lsBit n : Z) :
  0 <= n ->
  Z.testbit (newRegLs prevReg state lsBit) n =
  (n <? 8) && ((Z.testbit prevReg n && negb (Z.testbit (field_mask lsBit) n))
               || Z.testbit state (n - lsBit)).
Proof.
  intros Hn. unfold newRegLs, field_mask.
  rewrite testbit_u8, Z.lor_spec, testbit_u8, Z.land_spec, Z.lnot_spec by lia.
  rewrite (testbit_shiftl state) by lia.
  destruct (n <? 8); simpl; reflexivity.
Qed.

Lemma newRegLs_frame (prevReg state lsBit : Z) :
  is_u8 prevReg -> 0 <= state < 4 -> 
  Z.land (newRegLs prevReg state lsBit) (Z.lnot (field_mask lsBit)) =
  Z.land prevReg (Z.lnot (field_mask lsBit)).
Proof.
  intros Hp Hs. apply Z.bits_inj'. intros n Hn.
  rewrite !Z.land_spec, !Z.lnot_spec, newRegLs_bit by lia.
  destruct (Z.testbit (field_mask lsBit) n) eqn:Hm; simpl.
  - now rewrite !andb_false_r.
  - rewrite !andb_true_r.
    assert (Hst : Z.testbit state (n - lsBit) = false).
    { destruct (Z.ltb_spec (n - lsBit) 0) as [Hneg | Hpos].
      - now apply Z.testbit_neg_r.
      - destruct (Z.ltb_spec (n - lsBit) 2) as [Hin | Hout].
        + exfalso. unfold field_mask in Hm. rewrite testbit_shiftl in Hm by lia.
          assert (n - lsBit = 0 \/ n - lsBit = 1) as [E | E] by lia;
            rewrite E in Hm; discriminate.
        + apply (testbit_small 2); lia. }
    rewrite Hst, orb_false_r.
    destruct (Z.ltb_spec n 8) as [Hlt | Hge]; simpl; [reflexivity |].
    symmetry. apply (testbit_small 8); unfold is_u8 in Hp; lia.
Qed.

(** ** Effects of the methods *)


Lemma Transactions_app (P : Z -> Prop) (t1 t2 : list WireCall) :
  Transactions P t1 -> Transactions P t2 -> Transactions P (t1 ++ t2).
Proof.
  intros H1 H2. induction H1 as [| t _ IH | dev r v t Hr _ IH | dev r n b t Hr _ IH].
  - exact H2.
  - simpl. now constructor.
  - rewrite <- app_assoc. now constructor.
  - rewrite <- app_assoc. now constructor.
Qed.

Lemma Transactions_write (P : Z -> Prop) (dev r v : Z) :
  P r -> Transactions P (writeTx dev r v).
Proof.
  intros Hr. rewrite <- (app_nil_r (writeTx dev r v)).
  apply Tx_write; [exact Hr | apply Tx_nil].
Qed.

Lemma Transactions_read (P : Z -> Prop) (dev r n b : Z) :
  P r -> Transactions P (readTx dev r n b).
Proof.
  intros Hr. rewrite <- (app_nil_r (readTx dev r n b)).
  apply Tx_read; [exact Hr | apply Tx_nil].
Qed.

Lemma Transactions_regAddrs (P : Z -> Prop) (t : list WireCall) :
  Transactions P t -> Forall P (regAddrs t).
Proof.
  intros Ht. induction Ht as [| t _ IH | dev r v t Hr _ IH | dev r n b t Hr _ IH].
  - constructor.
  - exact IH.
  - simpl. now constructor.
  - unfold readTx. destruct (n =? 1); simpl; now constructor.
Qed.

(** A method whose first transport call goes through [_wire]: it returns
    only if the pointer leads to a transport. *)
Ltac needs_wire d m :=
  unfold bind, member, wire_beginTransmission, call; simpl;
  let p := fresh "p" in
  let w := fresh "w" in
  destruct (_wire d) as [p |] eqn:?; [| discriminate];
  destruct (m !! p) as [w |] eqn:?; [| discriminate];
  intros _; exists p, w; split; simpl; assumption.

Section Effects.

Context {W : Type} `{TwoWire W}.

Lemma ready_focus (s : World W) (p : ptr) (w : W) :
  ready s p w -> s = focus (self s) (wires s) p w (trace s).
Proof.
  intros [_ Hw]. unfold focus. rewrite insert_id by exact Hw.
  now destruct s.
Qed.

Lemma focus_ready (d : PCA9532) (m : gmap ptr W) p w t :
  _wire d = Some p -> ready (focus d m p w t) p w.
Proof.
  intros Hd. split; [exact Hd |]. unfold focus; simpl.
  apply lookup_insert_eq.
Qed.

Lemma call_focus {A : Type} (f : W -> A * W) (ev : A -> WireCall)
      (d : PCA9532) (m : gmap ptr W) p w t :
  _wire d = Some p ->
  call f ev (focus d m p w t) =
  Some (fst (f w), focus d m p (snd (f w)) (t ++ [ev (fst (f w))])).
Proof.
  intros Hd. unfold call, focus; simpl. rewrite Hd, lookup_insert_eq.
  destruct (f w) as [a w']; simpl. now rewrite insert_insert_eq.
Qed.

Lemma writeReg_focus (r v : Z) (d : PCA9532) (m : gmap ptr W) p w t :
  _wire d = Some p ->
  writeReg r v (focus d m p w t) =
  Some (tt, focus d m p (bus_writeReg (_deviceAddress d) r v w)
                  (t ++ writeTx (_deviceAddress d) r v)).
Proof.
  intros Hd. unfold writeReg, bind, member, ret.
  unfold wire_beginTransmission, wire_write, wire_endTransmission.
  cbn [self focus]. 
  repeat (rewrite call_focus by exact Hd; cbn [fst snd]).
  unfold bus_writeReg, writeTx. now rewrite <- !app_assoc.
Qed.

Lemma readReg_focus (r : Z) (d : PCA9532) (m : gmap ptr W) p w t :
  _wire d = Some p ->
  let dev := _deviceAddress d in
  let w2 := bus_select dev r w in
  readReg r (focus d m p w t) =
  Some (fst (bus_readReg dev r w),
        focus d m p (snd (bus_readReg dev r w))
              (t ++ readTx dev r (tw_available w2) (fst (tw_read w2)))).
Proof.
  intros Hd dev w2. unfold readReg, bind, member, ret.
  unfold wire_beginTransmission, wire_write, wire_endTransmission,
    wire_requestFrom, wire_available, wire_read.
  cbn [self focus].
  repeat (rewrite call_focus by exact Hd; cbn [fst snd]).
  fold dev. fold (bus_select dev r w). fold w2.
  unfold bus_readReg, readTx. fold w2.
  destruct (tw_available w2 =? 1).
  - rewrite call_focus by exact Hd. cbn [fst snd].
    now rewrite <- !app_assoc.
  - cbn [fst snd]. now rewrite <- !app_assoc, app_nil_r.
Qed.

Lemma member_focus {A : Type} (f : PCA9532 -> A) d (m : gmap ptr W) p w t :
  member f (focus d m p w t) = Some (f d, focus d m p w t).
Proof. reflexivity. Qed.

Lemma assign_focus (f : PCA9532 -> PCA9532) d (m : gmap ptr W) p w t :
  assign f (focus d m p w t) = Some (tt, focus (f d) m p w t).
Proof. reflexivity. Qed.

Lemma bind_Some {A B : Type} (c : M W A) (k : A -> M W B) s a s' :
  c s = Some (a, s') -> bind c k s = k a s'.
Proof. intros Hc. unfold bind. now rewrite Hc. Qed.

Lemma turnOn_focus d (m : gmap ptr W) p w t :
  _wire d = Some p ->
  let dev := _deviceAddress d in
  turnOn (focus d m p w t) =
  Some (tt,
        focus d m p
          (bus_writeReg dev REG_LS3 (_storedRegLs3 d)
             (bus_writeReg dev REG_LS2 (_storedRegLs2 d)
                (bus_writeReg dev REG_LS1 (_storedRegLs1 d)
                   (bus_writeReg dev REG_LS0 (_storedRegLs0 d) w))))
          (t ++ writeTx dev REG_LS0 (_storedRegLs0 d)
             ++ writeTx dev REG_LS1 (_storedRegLs1 d)
             ++ writeTx dev REG_LS2 (_storedRegLs2 d)
             ++ writeTx dev REG_LS3 (_storedRegLs3 d))).
Proof.
  intros Hd dev. unfold turnOn.
  repeat (first [ erewrite bind_Some by apply member_focus
                | erewrite bind_Some by (apply writeReg_focus; exact Hd) ]).
  rewrite writeReg_focus by exact Hd. fold dev.
  now rewrite <- !app_assoc.
Qed.

Lemma setGrpPwm_focus (pwm : Z) d (m : gmap ptr W) p w t :
  _wire d = Some p ->
  let dev := _deviceAddress d in
  setGrpPwm pwm (focus d m p w t) =
  Some (tt,
        focus d m p
          (bus_writeReg dev REG_PWM1 pwm (bus_writeReg dev REG_PWM0 pwm w))
          (t ++ writeTx dev REG_PWM0 pwm ++ writeTx dev REG_PWM1 pwm)).
Proof.
  intros Hd dev. unfold setGrpPwm.
  erewrite bind_Some by (apply writeReg_focus; exact Hd).
  rewrite writeReg_focus by exact Hd. fold dev.
  now rewrite <- !app_assoc.
Qed.

Lemma setLsStateAll_focus (state : Z) d (m : gmap ptr W) p w t :
  _wire d = Some p ->
  let dev := _deviceAddress d in
  let v := allLsReg state 6 4 2 0 in
  setLsStateAll state (focus d m p w t) =
  Some (tt,
        focus d m p
          (bus_writeReg dev REG_LS3 v
             (bus_writeReg dev REG_LS2 v
                (bus_writeReg dev REG_LS1 v
                   (bus_writeReg dev REG_LS0 v w))))
          (t ++ writeTx dev REG_LS0 v ++ writeTx dev REG_LS1 v
             ++ writeTx dev REG_LS2 v ++ writeTx dev REG_LS3 v)).
Proof.
  intros Hd dev v. unfold setLsStateAll.
  repeat (erewrite bind_Some by (apply writeReg_focus; exact Hd)).
  rewrite writeReg_focus by exact Hd. fold dev.
  now rewrite <- !app_assoc.
Qed.

Lemma setLsState_focus (state regLs lsBit : Z) d (m : gmap ptr W) p w t :
  _wire d = Some p ->
  let dev := _deviceAddress d in
  let w2 := bus_select dev regLs w in
  let rd := bus_readReg dev regLs w in
  setLsState state regLs lsBit (focus d m p w t) =
  Some (tt,
        focus d m p
          (bus_writeReg dev regLs (newRegLs (fst rd) state lsBit) (snd rd))
          (t ++ readTx dev regLs (tw_available w2) (fst (tw_read w2))
             ++ writeTx dev regLs (newRegLs (fst rd) state lsBit))).
Proof.
  intros Hd dev w2 rd. unfold setLsState.
  erewrite bind_Some by (apply readReg_focus; exact Hd).
  rewrite writeReg_focus by exact Hd. fold dev.
  now rewrite <- !app_assoc.
Qed.

Local Ltac ls_in_map :=
  unfold in_map, REG_LS0, REG_LS1, REG_LS2, REG_LS3; lia.

Lemma turnOff_focus d (m : gmap ptr W) p w t :
  _wire d = Some p ->
  let dev := _deviceAddress d in
  let r0 := bus_readReg dev REG_LS0 w in
  let w0 := bus_writeReg dev REG_LS0 LS_STATE_OFF (snd r0) in
  let r1 := bus_readReg dev REG_LS1 w0 in
  let w1 := bus_writeReg dev REG_LS1 LS_STATE_OFF (snd r1) in
  let r2 := bus_readReg dev REG_LS2 w1 in
  let w2 := bus_writeReg dev REG_LS2 LS_STATE_OFF (snd r2) in
  let r3 := bus_readReg dev REG_LS3 w2 in
  let w3 := bus_writeReg dev REG_LS3 LS_STATE_OFF (snd r3) in
  exists t',
    turnOff (focus d m p w t) =
    Some (tt,
          focus (mkPCA9532 (_regPwm1 d) (_regPwm2 d)
                           (fst r0) (fst r1) (fst r2) (fst r3)
                           (_deviceAddress d) (_wire d))
                m p w3 (t ++ t'))
    /\ Transactions in_map t'.
Proof.
  intros Hd dev r0 w0 r1 w1 r2 w2 r3 w3. unfold turnOff.
  eexists.
  repeat (first
    [ erewrite bind_Some by (apply readReg_focus; exact Hd)
    | erewrite bind_Some by apply assign_focus
    | erewrite bind_Some by (apply writeReg_focus; exact Hd) ]).
  rewrite writeReg_focus by exact Hd.
  cbn [_deviceAddress _wire _regPwm1 _regPwm2
       _storedRegLs0 _storedRegLs1 _storedRegLs2 _storedRegLs3
       set_storedRegLs0 set_storedRegLs1 set_storedRegLs2 set_storedRegLs3].
  fold dev; fold r0; fold w0; fold r1; fold w1; fold r2; fold w2;
    fold r3; fold w3.
  split.
  - rewrite <- !app_assoc. reflexivity.
  - repeat (first [ apply Tx_read; [ls_in_map |]
                  | apply Tx_write; [ls_in_map |] ]).
    apply Tx_nil.
Qed.


Lemma exec_focus (o : Op) d (m : gmap ptr W) p w t :
  is_begin o = false -> _wire d = Some p ->
  exists d' w' t',
    exec o (focus d m p w t) = Some (tt, focus d' m p w' (t ++ t'))
    /\ _wire d' = _wire d
    /\ _deviceAddress d' = _deviceAddress d
    /\ _regPwm1 d' = _regPwm1 d /\ _regPwm2 d' = _regPwm2 d
    /\ (is_turnOff o = false -> d' = d)
    /\ (regs_in_map o -> Transactions in_map t').
Proof.
  intros Hb Hd. destruct o as [a q | | | r v | v | r v | st r b | st];
    try discriminate Hb; cbn [exec regs_in_map is_turnOff].
  - exists d; do 2 eexists. split; [now apply turnOn_focus |].
    repeat split; try reflexivity. intros _.
    repeat apply Transactions_app;
      apply Transactions_write; unfold in_map; cbv; intuition discriminate.
  - destruct (turnOff_focus d m p w t Hd) as (t' & Hrun & Ht').
    do 3 eexists. split; [exact Hrun |].
    repeat split; try reflexivity; [discriminate | intros _; exact Ht'].
  - exists d; do 2 eexists. split; [now apply writeReg_focus |].
    repeat split; try reflexivity. now apply Transactions_write.
  - exists d; do 2 eexists. split; [now apply setGrpPwm_focus |].
    repeat split; try reflexivity. intros _.
    repeat apply Transactions_app;
      apply Transactions_write; unfold in_map; cbv; intuition discriminate.
  - exists d; do 2 eexists. split; [now apply writeReg_focus |].
    repeat split; try reflexivity. now apply Transactions_write.
  - exists d; do 2 eexists. split; [now apply setLsState_focus |].
    repeat split; try reflexivity. intros Hr.
    apply Transactions_app;
      [now apply Transactions_read | now apply Transactions_write].
  - exists d; do 2 eexists. split; [now apply setLsStateAll_focus |].
    repeat split; try reflexivity. intros _.
    repeat apply Transactions_app;
      apply Transactions_write; unfold in_map; cbv; intuition discriminate.
Qed.

Lemma begin_effect (a : Z) (q : ptr) (s : World W) (wq : W) :
  wires s !! q = Some wq ->
  begin a q s =
  Some (tt, focus (set_wire (Some q) (set_deviceAddress a (self s)))
                  (wires s) q (tw_begin wq) (trace s ++ [CBegin])).
Proof.
  intros Hq. unfold begin, bind, assign, wire_begin, call; simpl.
  now rewrite Hq.
Qed.

Lemma focus_same_dom (m : gmap ptr W) p w w' q :
  m !! p = Some w -> is_Some (<[p := w']> m !! q) <-> is_Some (m !! q).
Proof.
  intros Hp. rewrite lookup_insert_is_Some.
  split; [| destruct (decide (p = q)); tauto].
  intros [<- | [_ Hq]]; [now exists w | exact Hq].
Qed.

(** The effect of one call that has defined behaviour. *)
Lemma exec_effect (o : Op) (s : World W) :
  runnable s o ->
  exists s' t,
    exec o s = Some (tt, s')
    /\ trace s' = trace s ++ t
    /\ connected s'
    /\ (forall q, is_Some (wires s' !! q) <-> is_Some (wires s !! q))
    /\ (is_begin o = false ->
        _wire (self s') = _wire (self s)
        /\ _deviceAddress (self s') = _deviceAddress (self s))
    /\ (is_turnOff o = false -> stored (self s') = stored (self s))
    /\ (_regPwm1 (self s') = _regPwm1 (self s)
        /\ _regPwm2 (self s') = _regPwm2 (self s))
    /\ (is_begin o = false -> is_turnOff o = false -> self s' = self s)
    /\ (regs_in_map o -> Transactions in_map t).
Proof.
  intros Hrun. destruct (is_begin o) eqn:Hb.
  - destruct o as [a q | | | | | | |]; try discriminate Hb.
    destruct Hrun as [wq Hq].
    do 2 eexists. split; [exact (begin_effect a q s wq Hq) |].
    cbn [trace self wires focus]. split; [reflexivity |].
    split; [do 2 eexists; now apply focus_ready |].
    split; [intros q'; now apply focus_same_dom with wq |].
    repeat split; try discriminate.
    intros _. apply Tx_begin, Tx_nil.
  - assert (Hc : connected s) by (destruct o; try discriminate Hb; exact Hrun).
    destruct Hc as (p & w & Hready).
    pose proof Hready as [Hp Hw].
    destruct (exec_focus o (self s) (wires s) p w (trace s) Hb Hp)
      as (d' & w' & t' & Hexec & Hwire & Hdev & Hpwm1 & Hpwm2 & Hsame & Htx).
    rewrite <- (ready_focus s p w Hready) in Hexec.
    do 2 eexists. split; [exact Hexec |].
    cbn [trace self wires focus]. split; [reflexivity |].
    split; [do 2 eexists; apply focus_ready; congruence |].
    split; [intros q'; now apply focus_same_dom with w |].
    repeat split; try assumption.
    + intros Hoff. now rewrite (Hsame Hoff).
    + intros _ Hoff. exact (Hsame Hoff).
Qed.

(** A call that returns had defined behaviour. *)
Lemma exec_runnable (o : Op) (s : World W) (x : unit * World W) :
  exec o s = Some x -> runnable s o.
Proof.
  destruct s as [d m t].
  destruct o as [a q | | | r v | v | r v | st r b | st];
    cbn [exec runnable].
  - unfold begin, bind, assign, wire_begin, call; simpl.
    destruct (m !! q) as [wq |] eqn:Hq; [now exists wq | discriminate].
  - unfold turnOn, writeReg. needs_wire d m.
  - unfold turnOff, readReg. needs_wire d m.
  - unfold setPwm, writeReg. needs_wire d m.
  - unfold setGrpPwm, writeReg. needs_wire d m.
  - unfold setBlinking, writeReg. needs_wire d m.
  - unfold setLsState, readReg. needs_wire d m.
  - unfold setLsStateAll, writeReg. needs_wire d m.
Qed.

Lemma readReg_connected (r : Z) (s : World W) (x : Z * World W) :
  readReg r s = Some x -> connected s.
Proof. destruct s as [d m t]. unfold readReg. needs_wire d m. Qed.

End Effects.

(** ** Programs, and the chip behind the bus *)

Section Programs.
Context {W : Type} `{TwoWire W}.

Lemma run_effect (os : list Op) (s s' : World W) :
  run os s = Some (tt, s') ->
  exists t,
    trace s' = trace s ++ t
    /\ (forallb (fun o => negb (is_turnOff o)) os = true ->
        stored (self s') = stored (self s))
    /\ (Forall regs_in_map os -> Transactions in_map t).
Proof.
  revert s. induction os as [| o os IH]; intros s Hrun.
  - injection Hrun as <-. exists []. rewrite app_nil_r.
    repeat split. intros _. apply Tx_nil.
  - cbn [run] in Hrun. unfold bind in Hrun.
    destruct (exec o s) as [[[] s1] |] eqn:Hexec; [| discriminate].
    destruct (exec_effect o s (exec_runnable o s _ Hexec))
      as (s1' & t1 & Hexec' & Htr & _ & _ & _ & Hst & _ & _ & Htx).
    assert (s1' = s1) as -> by congruence.
    destruct (IH s1 Hrun) as (t2 & Htr2 & Hst2 & Htx2).
    exists (t1 ++ t2). split; [rewrite Htr2, Htr; symmetry; apply app_assoc |].
    split.
    + cbn [forallb]. intros [Ho Hos]%andb_true_iff.
      rewrite (Hst2 Hos). apply Hst. now destruct (is_turnOff o).
    + intros Hall. inversion Hall as [| ? ? Ho Hos]; subst.
      apply Transactions_app; auto.
Qed.
End Programs.

Lemma deliver_one_S (n : nat) (sc : list nat) :
  deliver_one (S n) sc = true ->
  deliver_one 1 sc = true /\ deliver_one n (tail sc) = true.
Proof.
  destruct sc as [| k sc]; simpl.
  - intros _. split; [reflexivity | now destruct n].
  - intros [Hk Hn]%andb_true_iff. rewrite Hk. now split.
Qed.

Lemma chip_writeReg (dev r v : Z) (b : Bus) :
  slaveAddress b = dev ->
  bus_writeReg dev r v b =
  mkBus (slaveAddress b) (<[u8 r := u8 v]> (regs b)) (u8 r) dev []
        (rxBuffer b) (script b).
Proof.
  intros <-. unfold bus_writeReg; simpl.
  unfold endTransmission; simpl. now rewrite Z.eqb_refl.
Qed.

Lemma chip_readReg (dev r : Z) (b : Bus) :
  slaveAddress b = dev ->
  deliver_one 1 (script b) = true ->
  bus_readReg dev r b =
  (u8 (Chip.reg b (u8 r)),
   mkBus (slaveAddress b) (regs b) (u8 r) dev [] [] (tail (script b))).
Proof.
  intros <- Hsc. unfold bus_readReg, bus_select; simpl.
  unfold endTransmission; simpl. rewrite Z.eqb_refl; simpl.
  unfold requestFrom; simpl. rewrite Z.eqb_refl.
  assert (Hk : match script b with [] => Z.to_nat 1 | k :: _ => k end = 1%nat).
  { destruct (script b) as [| k sc]; [reflexivity |].
    simpl in Hsc. rewrite andb_true_r in Hsc. now apply Nat.eqb_eq. }
  rewrite Hk. reflexivity.
Qed.

(** ** The claims *)

Lemma u8_is_u8 (z : Z) : is_u8 (u8 z).
Proof. unfold is_u8, u8. apply Z.mod_pos_bound. lia. Qed.

Lemma u8_small (z : Z) : is_u8 z -> u8 z = z.
Proof. unfold is_u8, u8. intros Hz. now apply Z.mod_small. Qed.

Lemma bus_readReg_is_u8 {W : Type} `{TwoWire W} (dev r : Z) (w : W) :
  is_u8 (fst (bus_readReg dev r w)).
Proof.
  unfold bus_readReg. destruct (_ =? 1); cbn [fst]; apply u8_is_u8.
Qed.

(** C1.  With [state] one of the four LS states and [lsBit] one of the
    offsets 0, 2, 4, 6, [setLsState] reads a byte [prevReg] and writes back
    a byte that agrees with [prevReg] on the six bits outside the two-bit
    field at [lsBit]: written & ~(0b11 << lsBit) = prevReg & ~(0b11 << lsBit). *)
Theorem setLsState_changes_only_its_field
        {W : Type} `{TwoWire W} (s : World W) (p : ptr) (w : W)
        (state regLs lsBit : Z) :
  ready s p w -> ls_state state -> ls_offset lsBit ->
  exists prevReg s0 newReg s',
    readReg regLs s = Some (prevReg, s0)
    /\ is_u8 prevReg
    /\ setLsState state regLs lsBit s = Some (tt, s')
    /\ trace s' = trace s0 ++ writeTx (_deviceAddress (self s)) regLs newReg
    /\ newReg = newRegLs prevReg state lsBit
    /\ Z.land newReg (Z.lnot (Z.shiftl 3 lsBit)) =
       Z.land prevReg (Z.lnot (Z.shiftl 3 lsBit)).
Proof.
  intros Hready Hstate _.
  pose proof Hready as [Hp _].
  rewrite (ready_focus s p w Hready).
  set (dev := _deviceAddress (self s)).
  set (rd := bus_readReg dev regLs w).
  exists (fst rd). eexists. exists (newRegLs (fst rd) state lsBit). eexists.
  split; [now apply readReg_focus |].
  split; [apply bus_readReg_is_u8 |].
  split; [now apply setLsState_focus |].
  cbn [trace focus self]. fold dev.
  split; [now rewrite <- app_assoc |].
  split; [reflexivity |].
  apply newRegLs_frame; [apply bus_readReg_is_u8 | unfold ls_state in Hstate; lia].
Qed.

Lemma setLsState_changes_only_its_field_witness :
  exists prevReg s0 newReg s',
    readReg REG_LS1 (begun []) = Some (prevReg, s0)
    /\ is_u8 prevReg
    /\ setLsState LS_STATE_BLNK0 REG_LS1 BIT_LS_LED6 (begun []) = Some (tt, s')
    /\ trace s' = trace s0 ++ writeTx 0x60 REG_LS1 newReg
    /\ newReg = newRegLs prevReg LS_STATE_BLNK0 BIT_LS_LED6
    /\ Z.land newReg (Z.lnot (Z.shiftl 3 BIT_LS_LED6)) =
       Z.land prevReg (Z.lnot (Z.shiftl 3 BIT_LS_LED6)).
Proof.
  apply (setLsState_changes_only_its_field (begun []) Wire (demo_bus [])).
  - split; reflexivity.
  - unfold ls_state, LS_STATE_BLNK0. lia.
  - unfold ls_offset, BIT_LS_LED6. lia.
Defined.

Lemma allLsReg_replicates (state : Z) :
  ls_state state ->
  allLsReg state 6 4 2 0 =
  Z.lor (Z.lor (Z.lor state (Z.shiftl state 2)) (Z.shiftl state 4))
        (Z.shiftl state 6).
Proof.
  unfold ls_state. intros Hs.
  assert (state = 0 \/ state = 1 \/ state = 2 \/ state = 3)
    as [-> | [-> | [-> | ->]]] by lia; reflexivity.
Qed.

(** C5.  For a state in 0..3, [setLsStateAll] makes exactly four register
    writes, to 0x06, 0x07, 0x08 and 0x09 in this order, each of the byte
    state | state<<2 | state<<4 | state<<6; for [LS_STATE_BLNK1] this byte
    is 0b11111111. *)
Theorem setLsStateAll_writes_replicated_state
        {W : Type} `{TwoWire W} (s : World W) (p : ptr) (w : W) (state : Z) :
  ready s p w -> ls_state state ->
  let dev := _deviceAddress (self s) in
  let v := Z.lor (Z.lor (Z.lor state (Z.shiftl state 2)) (Z.shiftl state 4))
                 (Z.shiftl state 6) in
  exists s' t,
    setLsStateAll state s = Some (tt, s')
    /\ trace s' = trace s ++ t
    /\ t = writeTx dev 0x06 v ++ writeTx dev 0x07 v
           ++ writeTx dev 0x08 v ++ writeTx dev 0x09 v
    /\ regWrites t = [(0x06, v); (0x07, v); (0x08, v); (0x09, v)]
    /\ (state = LS_STATE_BLNK1 -> v = 0xFF).
Proof.
  intros Hready Hstate dev v.
  pose proof Hready as [Hp _].
  pose proof (setLsStateAll_focus state (self s) (wires s) p w (trace s) Hp)
    as Hrun.
  rewrite <- (ready_focus s p w Hready) in Hrun.
  do 2 eexists.
  split; [exact Hrun |].
  cbn [trace focus]. fold dev.
  rewrite (allLsReg_replicates state Hstate). fold v.
  split; [reflexivity |]. split; [reflexivity |].
  split; [reflexivity |].
  intros ->. reflexivity.
Qed.

Lemma setLsStateAll_writes_replicated_state_witness :
  exists s' t,
    setLsStateAll LS_STATE_BLNK1 (begun []) = Some (tt, s')
    /\ trace s' = trace (begun []) ++ t
    /\ t = writeTx 0x60 0x06 255 ++ writeTx 0x60 0x07 255
           ++ writeTx 0x60 0x08 255 ++ writeTx 0x60 0x09 255
    /\ regWrites t = [(0x06, 255); (0x07, 255); (0x08, 255); (0x09, 255)]
    /\ (LS_STATE_BLNK1 = LS_STATE_BLNK1 -> 255 = 0xFF).
Proof.
  apply (setLsStateAll_writes_replicated_state
           (begun []) Wire (demo_bus []) LS_STATE_BLNK1).
  - split; reflexivity.
  - unfold ls_state, LS_STATE_BLNK1. lia.
Defined.

(** C7.  [readReg] returns the byte read from the bus when [available()]
    answers exactly one after the one-byte request, and 0xFF (-1 as a
    [uint8_t]) in every other case; a failed read thus returns what a read
    of a register holding 0xFF returns. *)
Theorem readReg_returns_byte_or_0xFF
        {W : Type} `{TwoWire W} (s : World W) (p : ptr) (w : W)
        (registerAddress : Z) :
  ready s p w ->
  let dev := _deviceAddress (self s) in
  let n := tw_available (bus_select dev registerAddress w) in
  let b := fst (tw_read (bus_select dev registerAddress w)) in
  exists v s',
    readReg registerAddress s = Some (v, s')
    /\ trace s' = trace s ++ readTx dev registerAddress n b
    /\ (n = 1 -> v = u8 b /\ (is_u8 b -> v = b))
    /\ (n <> 1 -> v = 0xFF)
    /\ (n <> 1 \/ (n = 1 /\ b = 0xFF) -> v = 0xFF).
Proof.
  intros Hready dev n b.
  pose proof Hready as [Hp _].
  pose proof (readReg_focus registerAddress (self s) (wires s) p w (trace s) Hp)
    as Hrun.
  rewrite <- (ready_focus s p w Hready) in Hrun.
  do 2 eexists.
  split; [exact Hrun |].
  cbn [trace focus]. fold dev n b.
  split; [reflexivity |].
  unfold bus_readReg. fold dev n b.
  destruct (Z.eqb_spec n 1) as [Hn | Hn]; cbn [fst].
  - split; [intros _; split; [reflexivity | apply u8_small] |].
    split; [intros Hne; now elim Hne |].
    intros [Hne | [_ Hb]]; [now elim Hne | now rewrite Hb].
  - split; [intros Hone; now elim Hn |].
    split; intros _; reflexivity.
Qed.

Lemma readReg_returns_byte_or_0xFF_witness :
  (exists v s',
     readReg REG_LS3 (begun []) = Some (v, s')
     /\ trace s' = trace (begun []) ++ readTx 0x60 REG_LS3 1 0xFF
     /\ (1 = 1 -> v = u8 0xFF /\ (is_u8 0xFF -> v = 0xFF))
     /\ (1 <> 1 -> v = 0xFF)
     /\ (1 <> 1 \/ (1 = 1 /\ 0xFF = 0xFF) -> v = 0xFF))
  /\ (exists v s',
     readReg REG_LS0 (begun [0%nat]) = Some (v, s')
     /\ trace s' = trace (begun [0%nat]) ++ readTx 0x60 REG_LS0 0 (-1)
     /\ (0 = 1 -> v = u8 (-1) /\ (is_u8 (-1) -> v = -1))
     /\ (0 <> 1 -> v = 0xFF)
     /\ (0 <> 1 \/ (0 = 1 /\ -1 = 0xFF) -> v = 0xFF)).
Proof.
  split.
  - exact (readReg_returns_byte_or_0xFF (begun []) Wire (demo_bus []) REG_LS3
             (conj eq_refl eq_refl)).
  - exact (readReg_returns_byte_or_0xFF
             (begun [0%nat]) Wire (demo_bus [0%nat]) REG_LS0
             (conj eq_refl eq_refl)).
Defined.

Lemma land_lnot_3 (z : Z) : Z.land z (Z.lnot 3) = 4 * (z / 4).
Proof.
  rewrite <- Z.ldiff_land. change 3 with (Z.ones 2).
  rewrite Z.ldiff_ones_r by lia.
  rewrite Z.shiftl_mul_pow2, Z.shiftr_div_pow2 by lia.
  change (2 ^ 2) with 4. lia.
Qed.

Lemma newRegLs_unmasked (state : Z) :
  is_u8 state -> newRegLs 0 state 0 = state.
Proof.
  intros Hs. unfold newRegLs.
  rewrite Z.land_0_l, Z.shiftl_0_r. change (u8 0) with 0.
  rewrite Z.lor_0_l. now apply u8_small.
Qed.

(** C10.  [setLsState] does not mask [state]: with a state byte of 4 or
    more, [lsBit] = 0 and a register that reads 0x00, the byte written is
    [state] itself, which differs from the byte read outside the two-bit
    field at offset 0 -- the bits of a neighbouring channel change. *)
Theorem setLsState_state_above_3_spills
        {W : Type} `{TwoWire W} (s s0 : World W) (state regLs : Z) :
  is_u8 state -> 4 <= state ->
  readReg regLs s = Some (0, s0) ->
  exists s',
    setLsState state regLs 0 s = Some (tt, s')
    /\ trace s' = trace s0 ++ writeTx (_deviceAddress (self s)) regLs state
    /\ Z.land state (Z.lnot (Z.shiftl 3 0)) <>
       Z.land 0 (Z.lnot (Z.shiftl 3 0)).
Proof.
  intros Hu8 Hge Hread.
  destruct (readReg_connected regLs s _ Hread) as (p & w & Hready).
  pose proof Hready as [Hp _].
  pose proof (readReg_focus regLs (self s) (wires s) p w (trace s) Hp) as Hrd.
  cbv zeta in Hrd. rewrite <- (ready_focus s p w Hready) in Hrd.
  rewrite Hread in Hrd. injection Hrd as Hprev Hs0.
  unfold setLsState. rewrite (bind_Some _ _ _ _ _ Hread).
  rewrite Hs0, writeReg_focus by exact Hp.
  rewrite (newRegLs_unmasked state Hu8).
  eexists. split; [reflexivity |].
  cbn [trace focus]. split; [reflexivity |].
  rewrite Z.shiftl_0_r, Z.land_0_l, land_lnot_3.
  unfold is_u8 in Hu8. pose proof (Z.div_le_lower_bound state 4 1). lia.
Qed.

Lemma setLsState_state_above_3_spills_witness :
  exists s0,
    readReg REG_PSC0 (begun []) = Some (0, s0)
    /\ exists s',
         setLsState 4 REG_PSC0 0 (begun []) = Some (tt, s')
         /\ trace s' = trace s0 ++ writeTx 0x60 REG_PSC0 4
         /\ Z.land 4 (Z.lnot (Z.shiftl 3 0)) <>
            Z.land 0 (Z.lnot (Z.shiftl 3 0)).
Proof.
  eexists. split; [vm_compute; reflexivity |].
  apply (setLsState_state_above_3_spills (begun []) _ 4 REG_PSC0).
  - unfold is_u8. lia.
  - lia.
  - vm_compute. reflexivity.
Defined.

(** C9.  A call of a public method other than [turnOff] leaves the four
    saved LS bytes as they were; a call other than [begin] leaves the
    device address and the transport pointer as they were; [turnOn],
    [setPwm], [setGrpPwm], [setBlinking], [setLsState] and [setLsStateAll]
    leave the whole driver object unchanged.  So a second [turnOn] writes
    the same four bytes as the first. *)
Theorem only_turnOff_and_begin_change_the_driver
        {W : Type} `{TwoWire W} (o : Op) (s : World W) :
  runnable s o ->
  exists s',
    exec o s = Some (tt, s')
    /\ (is_turnOff o = false -> stored (self s') = stored (self s))
    /\ (is_begin o = false ->
        _deviceAddress (self s') = _deviceAddress (self s)
        /\ _wire (self s') = _wire (self s))
    /\ (is_begin o = false -> is_turnOff o = false -> self s' = self s)
    /\ (o = OpTurnOn ->
        exists t s'',
          turnOn s' = Some (tt, s'')
          /\ trace s' = trace s ++ t
          /\ trace s'' = trace s' ++ t
          /\ regWrites t = [(REG_LS0, _storedRegLs0 (self s));
                            (REG_LS1, _storedRegLs1 (self s));
                            (REG_LS2, _storedRegLs2 (self s));
                            (REG_LS3, _storedRegLs3 (self s))]).
Proof.
  intros Hrun.
  destruct (exec_effect o s Hrun)
    as (s' & t & Hexec & Htr & Hconn & _ & Hdev & Hst & _ & Hsame & _).
  exists s'. split; [exact Hexec |]. split; [exact Hst |].
  split; [intros Hb; destruct (Hdev Hb); now split |].
  split; [exact Hsame |].
  intros ->. cbn [exec] in Hexec.
  destruct Hrun as (p & w & Hready). pose proof Hready as [Hp _].
  pose proof (turnOn_focus (self s) (wires s) p w (trace s) Hp) as Hon.
  cbv zeta in Hon. rewrite <- (ready_focus s p w Hready), Hexec in Hon.
  injection Hon as ->.
  eexists. eexists.
  split; [now apply turnOn_focus |].
  cbn [trace focus self]. split; [reflexivity |].
  split; [reflexivity |]. reflexivity.
Qed.

Lemma only_turnOff_and_begin_change_the_driver_witness :
  exists s',
    exec OpTurnOn (begun []) = Some (tt, s')
    /\ (is_turnOff OpTurnOn = false ->
        stored (self s') = stored (self (begun [])))
    /\ (is_begin OpTurnOn = false ->
        _deviceAddress (self s') = _deviceAddress (self (begun []))
        /\ _wire (self s') = _wire (self (begun [])))
    /\ (is_begin OpTurnOn = false -> is_turnOff OpTurnOn = false ->
        self s' = self (begun []))
    /\ (OpTurnOn = OpTurnOn ->
        exists t s'',
          turnOn s' = Some (tt, s'')
          /\ trace s' = trace (begun []) ++ t
          /\ trace s'' = trace s' ++ t
          /\ regWrites t = [(REG_LS0, 0); (REG_LS1, 0);
                            (REG_LS2, 0); (REG_LS3, 0)]).
Proof.
  apply (only_turnOff_and_begin_change_the_driver OpTurnOn (begun [])).
  exists Wire, (demo_bus []). split; reflexivity.
Defined.

(** C3, as stated, fails: the constructor does not assign the saved LS
    bytes.  An object built in storage that held 0x55 where
    [_storedRegLs0] lies has that byte saved after construction, and a
    [turnOn] before any [turnOff] writes it to LS0. *)
Lemma saved_bytes_zero_after_construction_counterexample :
  stored (PCA9532_new used_storage REG_PWM0 REG_PWM1) <> [0; 0; 0; 0]
  /\ exists s',
       run [OpBegin 0x60 Wire; OpTurnOn]
           (mkWorld (PCA9532_new used_storage REG_PWM0 REG_PWM1)
                    {[ Wire := demo_bus [] ]} [])
       = Some (tt, s')
       /\ regWrites (trace s') =
          [(REG_LS0, 0x55); (REG_LS1, 0); (REG_LS2, 0); (REG_LS3, 0)].
Proof.
  split; [discriminate |].
  eexists. split; vm_compute; reflexivity.
Qed.

(** C3, amended.  The constructor keeps the saved LS bytes of the object's
    storage.  For an object in zero-initialised storage (static storage
    duration) they are zero after construction and after every sequence of
    calls without [turnOff]; a [turnOn] issued then, on a begun driver,
    writes 0x00 to LS0, LS1, LS2 and LS3. *)
Theorem saved_bytes_zero_until_first_turnOff
        {W : Type} `{TwoWire W} (regPwm1 regPwm2 : Z) (os : list Op)
        (s s' : World W) :
  self s = PCA9532_new zero_storage regPwm1 regPwm2 ->
  forallb (fun o => negb (is_turnOff o)) os = true ->
  run os s = Some (tt, s') ->
  stored (self s) = [0; 0; 0; 0]
  /\ stored (self s') = [0; 0; 0; 0]
  /\ forall (p : ptr) (w : W),
       ready s' p w ->
       exists s'',
         turnOn s' = Some (tt, s'')
         /\ trace s'' =
            trace s' ++ writeTx (_deviceAddress (self s')) REG_LS0 0x00
                     ++ writeTx (_deviceAddress (self s')) REG_LS1 0x00
                     ++ writeTx (_deviceAddress (self s')) REG_LS2 0x00
                     ++ writeTx (_deviceAddress (self s')) REG_LS3 0x00.
Proof.
  intros Hnew Hos Hrun.
  split; [rewrite Hnew; reflexivity |].
  destruct (run_effect os s s' Hrun) as (t & _ & Hst & _).
  specialize (Hst Hos). rewrite Hnew in Hst. cbn in Hst.
  split; [exact Hst |].
  intros p w Hready.
  injection Hst as H0 H1 H2 H3.
  pose proof Hready as [Hp _].
  pose proof (turnOn_focus (self s') (wires s') p w (trace s') Hp) as Hon.
  cbv zeta in Hon. rewrite <- (ready_focus s' p w Hready) in Hon.
  rewrite H0, H1, H2, H3 in Hon.
  eexists. split; [exact Hon |]. reflexivity.
Qed.

Lemma saved_bytes_zero_until_first_turnOff_witness :
  (stored (self (sketch [])) = [0; 0; 0; 0]
   /\ stored (self (sketch [])) = [0; 0; 0; 0]
   /\ forall (p : ptr) (w : Bus),
        ready (sketch []) p w ->
        exists s'',
          turnOn (sketch []) = Some (tt, s'')
          /\ trace s'' =
             trace (sketch [])
               ++ writeTx (_deviceAddress (self (sketch []))) REG_LS0 0x00
               ++ writeTx (_deviceAddress (self (sketch []))) REG_LS1 0x00
               ++ writeTx (_deviceAddress (self (sketch []))) REG_LS2 0x00
               ++ writeTx (_deviceAddress (self (sketch []))) REG_LS3 0x00)
  /\ exists s',
       run [OpBegin 0x60 Wire; OpSetGrpPwm 7; OpSetLsState 1 REG_LS0 2]
           (sketch []) = Some (tt, s')
       /\ (exists b, ready s' Wire b)
       /\ stored (self (sketch [])) = [0; 0; 0; 0]
       /\ stored (self s') = [0; 0; 0; 0]
       /\ forall (p : ptr) (w : Bus),
            ready s' p w ->
            exists s'',
              turnOn s' = Some (tt, s'')
              /\ trace s'' =
                 trace s' ++ writeTx (_deviceAddress (self s')) REG_LS0 0x00
                          ++ writeTx (_deviceAddress (self s')) REG_LS1 0x00
                          ++ writeTx (_deviceAddress (self s')) REG_LS2 0x00
                          ++ writeTx (_deviceAddress (self s')) REG_LS3 0x00.
Proof.
  split.
  - apply (saved_bytes_zero_until_first_turnOff REG_PWM0 REG_PWM1 []
             (sketch []) (sketch [])); reflexivity.
  - eexists. split; [vm_compute; reflexivity |].
    split; [eexists; split; vm_compute; reflexivity |].
    eapply (saved_bytes_zero_until_first_turnOff REG_PWM0 REG_PWM1
              [OpBegin 0x60 Wire; OpSetGrpPwm 7; OpSetLsState 1 REG_LS0 2]
              (sketch [])).
    + reflexivity.
    + reflexivity.
    + vm_compute. reflexivity.
Defined.

(** C4, as stated, fails: [setPwm] hands its register argument to
    [writeReg] unchecked, so [setPwm(0x0A, 0)] puts address 0x0A on the
    bus. *)
Lemma addresses_within_map_counterexample :
  ~ (forall (os : list Op) (s s' : World Bus),
        run os s = Some (tt, s') ->
        exists t, trace s' = trace s ++ t /\ Forall in_map (regAddrs t)).
Proof.
  intros Hclaim.
  destruct (run [OpSetPwm 0x0A 0] (begun [])) as [[[] s'] |] eqn:Hrun;
    [| vm_compute in Hrun; discriminate].
  destruct (Hclaim _ _ _ Hrun) as (t & Htr & Hall).
  vm_compute in Hrun. injection Hrun as <-.
  cbn [trace begun app] in Htr. subst t. cbn in Hall.
  inversion Hall as [| ? ? Hin _]; subst.
  unfold in_map in Hin. lia.
Qed.

(** C4, amended.  The methods use the fixed addresses 0x03, 0x05 and
    0x06..0x09, and otherwise the register argument of the caller,
    unchecked.  For every sequence of calls in which the register
    arguments of [setPwm], [setBlinking] and [setLsState] lie in
    0x00..0x09, every register address put on the bus lies in
    0x00..0x09. *)
Theorem addresses_within_map_when_arguments_are
        {W : Type} `{TwoWire W} (os : list Op) (s s' : World W) :
  Forall regs_in_map os ->
  run os s = Some (tt, s') ->
  exists t,
    trace s' = trace s ++ t
    /\ Transactions in_map t
    /\ Forall in_map (regAddrs t).
Proof.
  intros Hargs Hrun.
  destruct (run_effect os s s' Hrun) as (t & Htr & _ & Htx).
  exists t. split; [exact Htr |].
  split; [exact (Htx Hargs) |].
  apply Transactions_regAddrs. exact (Htx Hargs).
Qed.

Lemma addresses_within_map_when_arguments_are_witness :
  exists s',
    run [OpBegin 0x60 Wire; OpSetBlinking REG_PSC0 BLINKING_PERIOD_1_S;
         OpSetLsState LS_STATE_BLNK0 REG_LS2 BIT_LS_LED9; OpTurnOff]
        (sketch []) = Some (tt, s')
    /\ exists t,
         trace s' = trace (sketch []) ++ t
         /\ Transactions in_map t
         /\ Forall in_map (regAddrs t).
Proof.
  eexists. split; [vm_compute; reflexivity |].
  eapply (addresses_within_map_when_arguments_are
            [OpBegin 0x60 Wire; OpSetBlinking REG_PSC0 BLINKING_PERIOD_1_S;
             OpSetLsState LS_STATE_BLNK0 REG_LS2 BIT_LS_LED9; OpTurnOff]
            (sketch [])).
  - repeat constructor; unfold in_map, REG_PSC0, REG_LS2; lia.
  - vm_compute. reflexivity.
Defined.

(** ** The claims about the chip's registers *)

(** One save-and-clear step of [turnOff] on the chip. *)
Lemma chip_save_and_clear (dev r : Z) (b : Bus) :
  slaveAddress b = dev ->
  deliver_one 1 (script b) = true ->
  fst (bus_readReg dev r b) = u8 (Chip.reg b (u8 r))
  /\ bus_writeReg dev r LS_STATE_OFF (snd (bus_readReg dev r b)) =
     mkBus (slaveAddress b) (<[u8 r := 0]> (regs b)) (u8 r) dev [] []
           (tail (script b)).
Proof.
  intros Hdev Hsc. rewrite (chip_readReg dev r b Hdev Hsc). cbn [fst snd].
  split; [reflexivity |].
  rewrite chip_writeReg by exact Hdev. reflexivity.
Qed.

(** C8.  For a byte [v], [setGrpPwm] makes exactly two register writes,
    [v] to PWM0 (0x03) and then [v] to PWM1 (0x05), and both registers of
    the chip hold [v] afterwards. *)
Theorem setGrpPwm_writes_both_pwm_registers
        (s : World Bus) (p : ptr) (b : Bus) (v : Z) :
  attached s p b -> is_u8 v ->
  exists s' b',
    setGrpPwm v s = Some (tt, s')
    /\ trace s' = trace s ++ writeTx (_deviceAddress (self s)) 0x03 v
                          ++ writeTx (_deviceAddress (self s)) 0x05 v
    /\ wires s' !! p = Some b'
    /\ Chip.reg b' REG_PWM0 = v
    /\ Chip.reg b' REG_PWM1 = v.
Proof.
  intros [Hready Haddr] Hv.
  pose proof Hready as [Hp _].
  pose proof (setGrpPwm_focus v (self s) (wires s) p b (trace s) Hp) as Hrun.
  cbv zeta in Hrun. rewrite <- (ready_focus s p b Hready) in Hrun.
  do 2 eexists. split; [exact Hrun |].
  cbn [trace focus wires]. split; [reflexivity |].
  split; [apply lookup_insert_eq |].
  rewrite (chip_writeReg _ REG_PWM0 v b) by (symmetry; exact Haddr).
  rewrite chip_writeReg by (symmetry; exact Haddr).
  cbn [regs]. rewrite (u8_small v Hv).
  unfold Chip.reg; cbn [regs]. change (u8 REG_PWM1) with 5.
  change (u8 REG_PWM0) with 3. unfold REG_PWM0, REG_PWM1.
  rewrite lookup_insert_eq, lookup_insert_ne, lookup_insert_eq by lia.
  split; reflexivity.
Qed.

Lemma setGrpPwm_writes_both_pwm_registers_witness :
  exists s' b',
    setGrpPwm 0x80 (begun []) = Some (tt, s')
    /\ trace s' = trace (begun []) ++ writeTx 0x60 0x03 0x80
                                   ++ writeTx 0x60 0x05 0x80
    /\ wires s' !! Wire = Some b'
    /\ Chip.reg b' REG_PWM0 = 0x80
    /\ Chip.reg b' REG_PWM1 = 0x80.
Proof.
  apply (setGrpPwm_writes_both_pwm_registers (begun []) Wire (demo_bus []) 0x80).
  - split; [split |]; reflexivity.
  - unfold is_u8. lia.
Defined.

(** [turnOff] on the chip, when its four reads each deliver one byte: the
    saved bytes are the LS registers, which are cleared. *)
Lemma chip_turnOff (s : World Bus) (p : ptr) (b : Bus) :
  attached s p b ->
  deliver_one 4 (script b) = true ->
  exists t',
    turnOff s =
    Some (tt,
          focus (mkPCA9532 (_regPwm1 (self s)) (_regPwm2 (self s))
                   (u8 (Chip.reg b REG_LS0)) (u8 (Chip.reg b REG_LS1))
                   (u8 (Chip.reg b REG_LS2)) (u8 (Chip.reg b REG_LS3))
                   (_deviceAddress (self s)) (_wire (self s)))
                (wires s) p
                (mkBus (slaveAddress b)
                       (<[REG_LS3 := 0]> (<[REG_LS2 := 0]> (<[REG_LS1 := 0]>
                          (<[REG_LS0 := 0]> (regs b)))))
                       REG_LS3 (slaveAddress b) [] []
                       (tail (tail (tail (tail (script b))))))
                (trace s ++ t')).
Proof.
  intros [Hready Haddr] Hsc.
  pose proof Hready as [Hp _].
  destruct (turnOff_focus (self s) (wires s) p b (trace s) Hp)
    as (t' & Hoff & _).
  rewrite <- (ready_focus s p b Hready) in Hoff.
  exists t'. rewrite Hoff. clear Hoff.
  rewrite Haddr.
  apply deliver_one_S in Hsc as [Hsc0 Hsc].
  destruct (chip_save_and_clear (slaveAddress b) REG_LS0 b eq_refl Hsc0)
    as [-> ->].
  apply deliver_one_S in Hsc as [Hsc1 Hsc].
  match goal with |- context [bus_readReg _ REG_LS1 ?b0] =>
    destruct (chip_save_and_clear (slaveAddress b) REG_LS1 b0 eq_refl Hsc1)
      as [-> ->] end.
  apply deliver_one_S in Hsc as [Hsc2 Hsc].
  match goal with |- context [bus_readReg _ REG_LS2 ?b1] =>
    destruct (chip_save_and_clear (slaveAddress b) REG_LS2 b1 eq_refl Hsc2)
      as [-> ->] end.
  apply deliver_one_S in Hsc as [Hsc3 _].
  match goal with |- context [bus_readReg _ REG_LS3 ?b2] =>
    destruct (chip_save_and_clear (slaveAddress b) REG_LS3 b2 eq_refl Hsc3)
      as [-> ->] end.
  cbn [slaveAddress regs script].
  change (u8 REG_LS0) with REG_LS0. change (u8 REG_LS1) with REG_LS1.
  change (u8 REG_LS2) with REG_LS2. change (u8 REG_LS3) with REG_LS3.
  unfold Chip.reg at 2 3 4. cbn [regs].
  unfold REG_LS0, REG_LS1, REG_LS2, REG_LS3.
  rewrite !lookup_insert_ne by lia.
  reflexivity.
Qed.

Lemma chip_turnOn (d : PCA9532) (m : gmap ptr Bus) (p : ptr) (b : Bus)
      (t : list WireCall) :
  _wire d = Some p -> _deviceAddress d = slaveAddress b ->
  exists t',
    turnOn (focus d m p b t) =
    Some (tt,
          focus d m p
                (mkBus (slaveAddress b)
                       (<[REG_LS3 := u8 (_storedRegLs3 d)]>
                          (<[REG_LS2 := u8 (_storedRegLs2 d)]>
                             (<[REG_LS1 := u8 (_storedRegLs1 d)]>
                                (<[REG_LS0 := u8 (_storedRegLs0 d)]>
                                   (regs b)))))
                       REG_LS3 (slaveAddress b) [] (rxBuffer b) (script b))
                (t ++ t')).
Proof.
  intros Hp Haddr. eexists.
  rewrite (turnOn_focus d m p b t Hp). rewrite Haddr.
  rewrite (chip_writeReg _ REG_LS0 _ b) by reflexivity.
  rewrite (chip_writeReg _ REG_LS1) by reflexivity.
  rewrite (chip_writeReg _ REG_LS2) by reflexivity.
  rewrite (chip_writeReg _ REG_LS3) by reflexivity.
  reflexivity.
Qed.

(** What a read leaves of the chip, whether or not it delivers a byte. *)
Lemma chip_readReg_fields (dev r : Z) (b : Bus) :
  slaveAddress b = dev ->
  let b' := snd (bus_readReg dev r b) in
  slaveAddress b' = dev /\ regs b' = regs b /\ script b' = tail (script b).
Proof.
  intros <-. unfold bus_readReg, bus_select; simpl.
  unfold endTransmission; simpl. rewrite Z.eqb_refl; simpl.
  destruct (_ =? 1); cbn [snd].
  - unfold read, requestFrom; simpl. rewrite Z.eqb_refl.
    destruct (repeat _ _); simpl; auto.
  - unfold requestFrom; simpl. auto.
Qed.

(** [turnOff] on the chip, whatever its reads deliver: the LS registers
    are cleared and four entries of the script are used up. *)
Lemma chip_turnOff_clears (s : World Bus) (p : ptr) (b : Bus) :
  attached s p b ->
  exists s1 b1,
    turnOff s = Some (tt, s1)
    /\ attached s1 p b1
    /\ regs b1 = <[REG_LS3 := 0]> (<[REG_LS2 := 0]> (<[REG_LS1 := 0]>
                   (<[REG_LS0 := 0]> (regs b))))
    /\ script b1 = tail (tail (tail (tail (script b)))).
Proof.
  intros [Hready Haddr].
  pose proof Hready as [Hp _].
  destruct (turnOff_focus (self s) (wires s) p b (trace s) Hp)
    as (t' & Hoff & _).
  rewrite <- (ready_focus s p b Hready) in Hoff.
  do 2 eexists. split; [exact Hoff |]. clear Hoff.
  rewrite Haddr.
  destruct (chip_readReg_fields (slaveAddress b) REG_LS0 b eq_refl)
    as (Ha0 & Hr0 & Hs0).
  set (b0 := bus_writeReg _ REG_LS0 _ _).
  assert (Hb0 : slaveAddress b0 = slaveAddress b /\
                regs b0 = <[REG_LS0 := 0]> (regs b) /\
                script b0 = tail (script b)).
  { unfold b0. rewrite chip_writeReg by exact Ha0. cbn. now rewrite Hr0, Hs0. }
  destruct Hb0 as (Hb0a & Hb0r & Hb0s).
  destruct (chip_readReg_fields (slaveAddress b) REG_LS1 b0 Hb0a)
    as (Ha1 & Hr1 & Hs1).
  set (b1 := bus_writeReg _ REG_LS1 _ _).
  assert (Hb1 : slaveAddress b1 = slaveAddress b /\
                regs b1 = <[REG_LS1 := 0]> (regs b0) /\
                script b1 = tail (script b0)).
  { unfold b1. rewrite chip_writeReg by exact Ha1. cbn. now rewrite Hr1, Hs1. }
  destruct Hb1 as (Hb1a & Hb1r & Hb1s).
  destruct (chip_readReg_fields (slaveAddress b) REG_LS2 b1 Hb1a)
    as (Ha2 & Hr2 & Hs2).
  set (b2 := bus_writeReg _ REG_LS2 _ _).
  assert (Hb2 : slaveAddress b2 = slaveAddress b /\
                regs b2 = <[REG_LS2 := 0]> (regs b1) /\
                script b2 = tail (script b1)).
  { unfold b2. rewrite chip_writeReg by exact Ha2. cbn. now rewrite Hr2, Hs2. }
  destruct Hb2 as (Hb2a & Hb2r & Hb2s).
  destruct (chip_readReg_fields (slaveAddress b) REG_LS3 b2 Hb2a)
    as (Ha3 & Hr3 & Hs3).
  set (b3 := bus_writeReg _ REG_LS3 _ _).
  assert (Hb3 : slaveAddress b3 = slaveAddress b /\
                regs b3 = <[REG_LS3 := 0]> (regs b2) /\
                script b3 = tail (script b2)).
  { unfold b3. rewrite chip_writeReg by exact Ha3. cbn. now rewrite Hr3, Hs3. }
  destruct Hb3 as (Hb3a & Hb3r & Hb3s).
  split.
  - split; [apply focus_ready; exact Hp |].
    cbn [self focus _deviceAddress]. symmetry. exact Hb3a.
  - split.
    + transitivity (regs b3); [reflexivity |].
      now rewrite Hb3r, Hb2r, Hb1r, Hb0r.
    + transitivity (script b3); [reflexivity |].
      now rewrite Hb3s, Hb2s, Hb1s, Hb0s.
Qed.

Lemma tail4_drop {A : Type} (l : list A) :
  tail (tail (tail (tail l))) = drop 4 l.
Proof. do 4 (destruct l as [| ? l]; [reflexivity |]). reflexivity. Qed.

(** C2.  [turnOff] followed at once by [turnOn], with each of the four
    reads of [turnOff] delivering the register's byte, leaves each of LS0,
    LS1, LS2 and LS3 with the value it had before [turnOff]. *)
Theorem turnOff_then_turnOn_restores_LS
        (s : World Bus) (p : ptr) (b : Bus) :
  attached s p b ->
  Forall is_u8 (ls_regs b) ->
  deliver_one 4 (script b) = true ->
  exists s' b',
    (turnOff ;;; turnOn) s = Some (tt, s')
    /\ wires s' !! p = Some b'
    /\ ls_regs b' = ls_regs b.
Proof.
  intros Hatt Hbytes Hsc.
  destruct (chip_turnOff s p b Hatt Hsc) as (t1 & Hoff).
  destruct Hatt as [[Hp _] Haddr].
  rewrite (bind_Some _ _ _ _ _ Hoff).
  match goal with |- context [turnOn (focus ?d ?m ?q ?b1 ?t)] =>
    destruct (chip_turnOn d m q b1 t Hp Haddr) as (t2 & Hon) end.
  do 2 eexists. split; [exact Hon |].
  split; [apply lookup_insert_eq |].
  unfold ls_regs, Chip.reg in *.
  cbn [regs _storedRegLs0 _storedRegLs1 _storedRegLs2 _storedRegLs3].
  inversion Hbytes as [| ? ? H0 Hb1]; subst.
  inversion Hb1 as [| ? ? H1 Hb2]; subst.
  inversion Hb2 as [| ? ? H2 Hb3]; subst.
  inversion Hb3 as [| ? ? H3 _]; subst.
  unfold REG_LS0, REG_LS1, REG_LS2, REG_LS3 in *.
  repeat (first [ rewrite lookup_insert_eq
                | rewrite lookup_insert_ne by lia ]).
  cbn [default]. now rewrite !u8_small by (try rewrite u8_small; assumption).
Qed.

Lemma turnOff_then_turnOn_restores_LS_witness :
  exists s' b',
    (turnOff ;;; turnOn) (begun []) = Some (tt, s')
    /\ wires s' !! Wire = Some b'
    /\ ls_regs b' = [0x55; 0xA1; 0x03; 0xFF].
Proof.
  apply (turnOff_then_turnOn_restores_LS (begun []) Wire (demo_bus [])).
  - split; [split |]; reflexivity.
  - repeat constructor; vm_compute; intuition discriminate.
  - reflexivity.
Defined.

(** C6, as stated, fails when a read of the second [turnOff] fails: the
    byte saved then is 0xFF, and [turnOn] writes it.  Here the fifth
    request on the bus delivers nothing and LS0 ends at 0xFF. *)
Lemma double_turnOff_counterexample :
  ~ (forall (s : World Bus) (p : ptr) (b : Bus),
        attached s p b ->
        exists s' b',
          (turnOff ;;; turnOff ;;; turnOn) s = Some (tt, s')
          /\ wires s' !! p = Some b'
          /\ ls_regs b' = [0; 0; 0; 0]).
Proof.
  intros Hclaim.
  destruct (Hclaim (begun [1; 1; 1; 1; 0]%nat) Wire
                   (demo_bus [1; 1; 1; 1; 0]%nat))
    as (s' & b' & Hrun & Hb' & Hls).
  { split; [split |]; reflexivity. }
  vm_compute in Hrun. injection Hrun as <-.
  vm_compute in Hb'. injection Hb' as <-.
  vm_compute in Hls. discriminate Hls.
Qed.

(** C6, amended.  Two calls of [turnOff] in a row and then [turnOn], with
    each of the four reads of the second [turnOff] delivering the
    register's byte, leave LS0, LS1, LS2 and LS3 at 0x00 whatever they held
    before: the second [turnOff] saves the zeros the first one wrote. *)
Theorem double_turnOff_then_turnOn_leaves_all_off
        (s : World Bus) (p : ptr) (b : Bus) :
  attached s p b ->
  deliver_one 4 (drop 4 (script b)) = true ->
  exists s' b',
    (turnOff ;;; turnOff ;;; turnOn) s = Some (tt, s')
    /\ wires s' !! p = Some b'
    /\ ls_regs b' = [0; 0; 0; 0]
    /\ stored (self s') = [0; 0; 0; 0].
Proof.
  intros Hatt Hsc.
  destruct (chip_turnOff_clears s p b Hatt)
    as (s1 & b1 & Hoff1 & Hatt1 & Hregs1 & Hsc1).
  rewrite <- tail4_drop, <- Hsc1 in Hsc.
  destruct (chip_turnOff s1 p b1 Hatt1 Hsc) as (t2 & Hoff2).
  destruct Hatt1 as [[Hp1 _] Haddr1].
  rewrite (bind_Some _ _ _ _ _ Hoff1), (bind_Some _ _ _ _ _ Hoff2).
  match goal with |- context [turnOn (focus ?d ?m ?q ?b2 ?t)] =>
    destruct (chip_turnOn d m q b2 t Hp1 Haddr1) as (t3 & Hon) end.
  do 2 eexists. split; [exact Hon |].
  split; [apply lookup_insert_eq |].
  assert (Hz : forall r, r = REG_LS0 \/ r = REG_LS1 \/ r = REG_LS2 \/ r = REG_LS3 ->
                         u8 (Chip.reg b1 r) = 0).
  { intros r Hr. unfold Chip.reg. rewrite Hregs1.
    unfold REG_LS0, REG_LS1, REG_LS2, REG_LS3 in *.
    destruct Hr as [-> | [-> | [-> | ->]]];
      repeat (first [ rewrite lookup_insert_eq
                    | rewrite lookup_insert_ne by lia ]); reflexivity. }
  cbn [self focus stored _storedRegLs0 _storedRegLs1 _storedRegLs2
       _storedRegLs3].
  rewrite !Hz by tauto.
  split; [| reflexivity].
  unfold ls_regs, Chip.reg. cbn [regs].
  unfold REG_LS0, REG_LS1, REG_LS2, REG_LS3.
  repeat (first [ rewrite lookup_insert_eq
                | rewrite lookup_insert_ne by lia ]).
  reflexivity.
Qed.

Lemma double_turnOff_then_turnOn_leaves_all_off_witness :
  exists s' b',
    (turnOff ;;; turnOff ;;; turnOn) (begun [0; 2; 1; 1]%nat) = Some (tt, s')
    /\ wires s' !! Wire = Some b'
    /\ ls_regs b' = [0; 0; 0; 0]
    /\ stored (self s') = [0; 0; 0; 0].
Proof.
  apply (double_turnOff_then_turnOn_leaves_all_off
           (begun [0; 2; 1; 1]%nat) Wire (demo_bus [0; 2; 1; 1]%nat)).
  - split; [split |]; reflexivity.
  - reflexivity.
Defined.

(** * Further properties of the driver *)

(** ** Channel fields of an LS byte *)

Lemma testbit_3 (n : Z) : Z.testbit 3 n = (0 <=? n) && (n <? 2).
Proof.
  destruct (Z.leb_spec 0 n) as [Hpos | Hneg]; simpl.
  - destruct (Z.ltb_spec n 2) as [Hlt | Hge].
    + assert (n = 0 \/ n = 1) as [-> | ->] by lia; reflexivity.
    + apply (testbit_small 2); lia.
  - now apply Z.testbit_neg_r.
Qed.

Lemma testbit_ls_state (state n : Z) :
  ls_state state -> Z.testbit state n = true -> Z.testbit 3 n = true.
Proof.
  intros Hs Hbit. rewrite testbit_3.
  destruct (Z.leb_spec 0 n) as [Hpos | Hneg]; simpl.
  - destruct (Z.ltb_spec n 2) as [Hlt | Hge]; [reflexivity |].
    rewrite (testbit_small 2 state n) in Hbit; [discriminate | lia | | lia].
    unfold ls_state in Hs. change (2 ^ 2) with 4. lia.
  - rewrite Z.testbit_neg_r in Hbit by lia. discriminate.
Qed.

Lemma testbit_mask (lsBit n : Z) :
  0 <= n -> Z.testbit (field_mask lsBit) n = Z.testbit 3 (n - lsBit).
Proof. intros Hn. unfold field_mask. now apply testbit_shiftl. Qed.

Lemma testbit_ls_field (reg lsBit n : Z) :
  0 <= lsBit -> 0 <= n ->
  Z.testbit (ls_field reg lsBit) n = Z.testbit reg (n + lsBit) && Z.testbit 3 n.
Proof.
  intros Hb Hn. unfold ls_field.
  now rewrite Z.land_spec, Z.shiftr_spec by lia.
Qed.

(** The field [setLsState] addresses holds [state] afterwards. *)
Lemma newRegLs_field (prevReg state lsBit : Z) :
  ls_state state -> 0 <= lsBit <= 6 ->
  ls_field (newRegLs prevReg state lsBit) lsBit = state.
Proof.
  intros Hs Hb. apply Z.bits_inj'. intros n Hn.
  rewrite testbit_ls_field, newRegLs_bit, testbit_mask by lia.
  replace (n + lsBit - lsBit) with n by lia.
  destruct (Z.testbit 3 n) eqn:H3.
  - rewrite testbit_3 in H3. apply andb_true_iff in H3 as [_ Hlt%Z.ltb_lt].
    assert (Hlt8 : (n + lsBit <? 8) = true) by (apply Z.ltb_lt; lia).
    rewrite Hlt8. simpl. now rewrite !andb_false_r, andb_true_r.
  - rewrite andb_false_r.
    destruct (Z.testbit state n) eqn:Hst; [| reflexivity].
    rewrite (testbit_ls_state state n Hs Hst) in H3. discriminate.
Qed.

(** Writing the same state to the same channel twice is writing it once. *)
Lemma newRegLs_idempotent (prevReg state lsBit : Z) :
  newRegLs (newRegLs prevReg state lsBit) state lsBit =
  newRegLs prevReg state lsBit.
Proof.
  apply Z.bits_inj'. intros n Hn. rewrite !newRegLs_bit by lia.
  destruct (n <? 8), (Z.testbit prevReg n),
    (Z.testbit (field_mask lsBit) n), (Z.testbit state (n - lsBit));
    reflexivity.
Qed.

(** Two channels of one register: the order of the two calls is
    irrelevant for the byte left. *)
Lemma newRegLs_commute (prevReg s1 b1 s2 b2 : Z) :
  ls_state s1 -> ls_state s2 -> 2 <= Z.abs (b1 - b2) ->
  newRegLs (newRegLs prevReg s1 b1) s2 b2 =
  newRegLs (newRegLs prevReg s2 b2) s1 b1.
Proof.
  intros H1 H2 Hfar. apply Z.bits_inj'. intros n Hn.
  rewrite !newRegLs_bit, !testbit_mask by lia.
  pose proof (testbit_ls_state s1 (n - b1) H1) as Hin1.
  pose proof (testbit_ls_state s2 (n - b2) H2) as Hin2.
  assert (Hdisj : Z.testbit 3 (n - b1) && Z.testbit 3 (n - b2) = false).
  { rewrite !testbit_3.
    destruct (Z.leb_spec 0 (n - b1)), (Z.ltb_spec (n - b1) 2),
      (Z.leb_spec 0 (n - b2)), (Z.ltb_spec (n - b2) 2); simpl;
      try reflexivity; lia. }
  destruct (n <? 8), (Z.testbit prevReg n),
    (Z.testbit 3 (n - b1)), (Z.testbit 3 (n - b2)),
    (Z.testbit s1 (n - b1)), (Z.testbit s2 (n - b2));
    simpl in *; try reflexivity; try discriminate;
    try (specialize (Hin1 eq_refl); discriminate);
    try (specialize (Hin2 eq_refl); discriminate).
Qed.

(** A channel other than the addressed one keeps its state. *)
Lemma newRegLs_other_field (prevReg state lsBit other : Z) :
  is_u8 prevReg -> ls_state state -> 0 <= other -> 2 <= Z.abs (lsBit - other) ->
  ls_field (newRegLs prevReg state lsBit) other = ls_field prevReg other.
Proof.
  intros Hp Hs Ho Hfar. apply Z.bits_inj'. intros n Hn.
  rewrite !testbit_ls_field, newRegLs_bit, testbit_mask by lia.
  destruct (Z.testbit 3 n) eqn:H3; [| now rewrite !andb_false_r].
  rewrite !andb_true_r.
  rewrite testbit_3 in H3. apply andb_true_iff in H3 as [_ Hlt%Z.ltb_lt].
  assert (Hm : Z.testbit 3 (n + other - lsBit) = false).
  { rewrite testbit_3.
    destruct (Z.leb_spec 0 (n + other - lsBit)),
      (Z.ltb_spec (n + other - lsBit) 2); simpl; try reflexivity; lia. }
  assert (Hst : Z.testbit state (n + other - lsBit) = false).
  { destruct (Z.testbit state (n + other - lsBit)) eqn:E; [| reflexivity].
    rewrite (testbit_ls_state _ _ Hs E) in Hm. discriminate. }
  rewrite Hm, Hst. simpl. rewrite orb_false_r, andb_true_r.
  destruct (Z.ltb_spec (n + other) 8) as [Hlt8 | Hge8]; [reflexivity |].
  simpl. symmetry. apply (testbit_small 8); unfold is_u8 in Hp; lia.
Qed.

(** ** The chip under single calls *)

Lemma u8_idem (z : Z) : u8 (u8 z) = u8 z.
Proof. apply u8_small, u8_is_u8. Qed.

Lemma newRegLs_is_u8 (prevReg state lsBit : Z) :
  is_u8 (newRegLs prevReg state lsBit).
Proof. unfold newRegLs. apply u8_is_u8. Qed.

Lemma read_byte_is_u8 (k : nat) (v : Z) : is_u8 (read_byte k v).
Proof.
  unfold read_byte. destruct (Nat.eqb k 1); [apply u8_is_u8 |].
  unfold is_u8. lia.
Qed.

(** What [readReg] returns on the chip, whatever the request delivers. *)
Lemma chip_readReg_any (dev r : Z) (b : Bus) :
  slaveAddress b = dev ->
  fst (bus_readReg dev r b) =
  read_byte (delivered (script b)) (Chip.reg b (u8 r)).
Proof.
  intros <-. unfold bus_readReg, bus_select; simpl.
  unfold endTransmission; simpl. rewrite Z.eqb_refl; simpl.
  unfold requestFrom; simpl. rewrite Z.eqb_refl.
  change (match script b with [] => Z.to_nat 1 | k :: _ => k end)
    with (delivered (script b)).
  generalize (delivered (script b)). intros k.
  unfold available; cbn [rxBuffer]. rewrite repeat_length.
  assert (Hk : (Z.of_nat k =? 1) = Nat.eqb k 1).
  { destruct (Nat.eqb_spec k 1) as [Heq | Hne]; [now rewrite Heq |].
    apply Z.eqb_neq. lia. }
  rewrite Hk. unfold read_byte.
  destruct (Nat.eqb_spec k 1) as [Heq | Hne]; [now rewrite Heq | reflexivity].
Qed.

(** A register write on the chip: the register takes the byte, the others
    keep theirs. *)
Lemma chip_writeReg_regs (dev r v : Z) (b : Bus) :
  slaveAddress b = dev ->
  let b' := bus_writeReg dev r v b in
  slaveAddress b' = dev
  /\ regs b' = <[u8 r := u8 v]> (regs b)
  /\ script b' = script b.
Proof.
  intros Hdev. cbv zeta. rewrite chip_writeReg by exact Hdev.
  now cbn.
Qed.

Lemma reg_insert (b b' : Bus) (r v r' : Z) :
  regs b' = <[r := v]> (regs b) ->
  Chip.reg b' r' = if decide (r = r') then v else Chip.reg b r'.
Proof.
  intros Hr. unfold Chip.reg. rewrite Hr, lookup_insert.
  now destruct (decide (r = r')).
Qed.

(** [setLsState] on the chip. *)
Lemma chip_setLsState (state regLs lsBit : Z) (s : World Bus) (p : ptr)
      (b : Bus) :
  attached s p b ->
  exists s' b',
    setLsState state regLs lsBit s = Some (tt, s')
    /\ attached s' p b'
    /\ self s' = self s
    /\ regs b' =
       <[u8 regLs :=
           newRegLs (read_byte (delivered (script b))
                               (Chip.reg b (u8 regLs))) state lsBit]>
         (regs b)
    /\ script b' = tail (script b).
Proof.
  intros [Hready Haddr]. pose proof Hready as [Hp _].
  pose proof (setLsState_focus state regLs lsBit (self s) (wires s) p b
                (trace s) Hp) as Hrun.
  cbv zeta in Hrun. rewrite <- (ready_focus s p b Hready) in Hrun.
  rewrite Haddr in Hrun.
  destruct (chip_readReg_fields (slaveAddress b) regLs b eq_refl)
    as (Ha & Hr & Hs).
  pose proof (chip_readReg_any (slaveAddress b) regLs b eq_refl) as Hv.
  destruct (chip_writeReg_regs (slaveAddress b) regLs
              (newRegLs (fst (bus_readReg (slaveAddress b) regLs b))
                        state lsBit)
              (snd (bus_readReg (slaveAddress b) regLs b)) Ha)
    as (Ha' & Hr' & Hs').
  do 2 eexists. split; [exact Hrun |].
  split; [split; [now apply focus_ready | cbn; now rewrite Ha'] |].
  split; [reflexivity |].
  split.
  - rewrite Hr', Hr, Hv. now rewrite (u8_small _ (newRegLs_is_u8 _ _ _)).
  - now rewrite Hs', Hs.
Qed.

(** [setPwm] and [setBlinking] on the chip: one register write. *)
Lemma chip_writeReg_run (r v : Z) (s : World Bus) (p : ptr) (b : Bus) :
  attached s p b ->
  exists s' b',
    writeReg r v s = Some (tt, s')
    /\ attached s' p b'
    /\ self s' = self s
    /\ trace s' = trace s ++ writeTx (_deviceAddress (self s)) r v
    /\ regs b' = <[u8 r := u8 v]> (regs b)
    /\ script b' = script b.
Proof.
  intros [Hready Haddr]. pose proof Hready as [Hp _].
  pose proof (writeReg_focus r v (self s) (wires s) p b (trace s) Hp) as Hrun.
  rewrite <- (ready_focus s p b Hready) in Hrun.
  destruct (chip_writeReg_regs (slaveAddress b) r v b eq_refl)
    as (Ha' & Hr' & Hs').
  do 2 eexists. split; [exact Hrun |].
  split; [split; [now apply focus_ready | cbn; now rewrite Haddr, Ha'] |].
  split; [reflexivity |]. split; [reflexivity |].
  rewrite Haddr. now split.
Qed.

(** ** Further properties of the methods *)

(** X1.  [setLsState] on the chip, when its read delivers the register's
    byte: afterwards the addressed channel of [regLs] holds [state], the
    three other channels of [regLs] hold what they held, every other
    register of the chip is untouched and so is the driver object. *)
Theorem setLsState_sets_the_channel
        (s : World Bus) (p : ptr) (b : Bus) (state regLs lsBit : Z) :
  attached s p b ->
  delivered (script b) = 1%nat ->
  is_u8 regLs -> is_u8 (Chip.reg b regLs) ->
  ls_state state -> ls_offset lsBit ->
  exists s' b',
    setLsState state regLs lsBit s = Some (tt, s')
    /\ wires s' !! p = Some b'
    /\ self s' = self s
    /\ ls_field (Chip.reg b' regLs) lsBit = state
    /\ (forall other, ls_offset other -> other <> lsBit ->
        ls_field (Chip.reg b' regLs) other = ls_field (Chip.reg b regLs) other)
    /\ (forall r, r <> regLs -> Chip.reg b' r = Chip.reg b r).
Proof.
  intros Hatt Hk Hr Hv Hs Hb.
  destruct (chip_setLsState state regLs lsBit s p b Hatt)
    as (s' & b' & Hrun & [[_ Hw] _] & Hself & Hregs & _).
  rewrite Hk, (u8_small regLs Hr) in Hregs.
  unfold read_byte in Hregs. cbn [Nat.eqb] in Hregs.
  rewrite (u8_small _ Hv) in Hregs.
  exists s', b'. split; [exact Hrun |]. split; [exact Hw |].
  split; [exact Hself |].
  rewrite (reg_insert b b' _ _ regLs Hregs).
  destruct (decide (regLs = regLs)) as [_ | Hne]; [| now elim Hne].
  split; [apply newRegLs_field; [exact Hs | unfold ls_offset in Hb; lia] |].
  split.
  - intros other Ho Hne. apply newRegLs_other_field; try assumption;
      unfold ls_offset in Hb, Ho; lia.
  - intros r Hne. rewrite (reg_insert b b' _ _ r Hregs).
    destruct (decide (regLs = r)) as [Heq | _]; [now elim Hne | reflexivity].
Qed.

Lemma setLsState_sets_the_channel_witness :
  exists s' b',
    setLsState LS_STATE_ON REG_LS1 BIT_LS_LED5 (begun []) = Some (tt, s')
    /\ wires s' !! Wire = Some b'
    /\ self s' = self (begun [])
    /\ ls_field (Chip.reg b' REG_LS1) BIT_LS_LED5 = LS_STATE_ON
    /\ (forall other, ls_offset other -> other <> BIT_LS_LED5 ->
        ls_field (Chip.reg b' REG_LS1) other =
        ls_field (Chip.reg (demo_bus []) REG_LS1) other)
    /\ (forall r, r <> REG_LS1 -> Chip.reg b' r = Chip.reg (demo_bus []) r).
Proof.
  apply (setLsState_sets_the_channel (begun []) Wire (demo_bus [])).
  - split; [split |]; reflexivity.
  - reflexivity.
  - unfold is_u8, REG_LS1. lia.
  - vm_compute. intuition discriminate.
  - unfold ls_state, LS_STATE_ON. lia.
  - unfold ls_offset, BIT_LS_LED5. lia.
Defined.

(** X2.  Setting two different channels of one LS register gives the same
    register content in either order (the reads delivering their byte). *)
Theorem setLsState_on_two_channels_commutes
        (s : World Bus) (p : ptr) (b : Bus) (regLs s1 b1 s2 b2 : Z) :
  attached s p b ->
  deliver_one 2 (script b) = true ->
  ls_state s1 -> ls_state s2 -> ls_offset b1 -> ls_offset b2 -> b1 <> b2 ->
  exists s12 s21 b12 b21,
    (setLsState s1 regLs b1 ;;; setLsState s2 regLs b2) s = Some (tt, s12)
    /\ (setLsState s2 regLs b2 ;;; setLsState s1 regLs b1) s = Some (tt, s21)
    /\ wires s12 !! p = Some b12
    /\ wires s21 !! p = Some b21
    /\ regs b12 = regs b21.
Proof.
  intros Hatt Hsc H1 H2 Hb1 Hb2 Hne.
  apply deliver_one_S in Hsc as [Hk0 Hsc]. apply deliver_one_S in Hsc as [Hk1 _].
  assert (Hd : forall sc, deliver_one 1 sc = true -> delivered sc = 1%nat).
  { intros [| k sc]; [reflexivity |]. simpl. rewrite andb_true_r.
    now intros ->%Nat.eqb_eq. }
  destruct (chip_setLsState s1 regLs b1 s p b Hatt)
    as (sa & ba & Hra & Hatta & _ & Hregsa & Hsca).
  destruct (chip_setLsState s2 regLs b2 sa p ba Hatta)
    as (sab & bab & Hrab & [[_ Hwab] _] & _ & Hregsab & _).
  destruct (chip_setLsState s2 regLs b2 s p b Hatt)
    as (sb & bb & Hrb & Hattb & _ & Hregsb & Hscb).
  destruct (chip_setLsState s1 regLs b1 sb p bb Hattb)
    as (sba & bba & Hrba & [[_ Hwba] _] & _ & Hregsba & _).
  exists sab, sba, bab, bba.
  rewrite (bind_Some _ _ _ _ _ Hra), (bind_Some _ _ _ _ _ Hrb).
  do 4 (split; [assumption |]).
  rewrite Hregsab, Hregsba.
  rewrite (reg_insert b ba _ _ (u8 regLs) Hregsa).
  rewrite (reg_insert b bb _ _ (u8 regLs) Hregsb).
  destruct (decide (u8 regLs = u8 regLs)) as [_ | Hx]; [| now elim Hx].
  rewrite Hregsa, Hregsb, Hsca, Hscb, (Hd _ Hk0), (Hd _ Hk1).
  rewrite !insert_insert_eq.
  unfold read_byte at 1 3. cbn [Nat.eqb].
  rewrite !(u8_small _ (newRegLs_is_u8 _ _ _)).
  f_equal. apply newRegLs_commute; try assumption.
  unfold ls_offset in Hb1, Hb2. lia.
Qed.

Lemma setLsState_on_two_channels_commutes_witness :
  exists s12 s21 b12 b21,
    (setLsState LS_STATE_ON REG_LS0 BIT_LS_LED0 ;;;
     setLsState LS_STATE_BLNK1 REG_LS0 BIT_LS_LED3) (begun []) = Some (tt, s12)
    /\ (setLsState LS_STATE_BLNK1 REG_LS0 BIT_LS_LED3 ;;;
        setLsState LS_STATE_ON REG_LS0 BIT_LS_LED0) (begun []) = Some (tt, s21)
    /\ wires s12 !! Wire = Some b12
    /\ wires s21 !! Wire = Some b21
    /\ regs b12 = regs b21.
Proof.
  apply (setLsState_on_two_channels_commutes (begun []) Wire (demo_bus [])).
  - split; [split |]; reflexivity.
  - reflexivity.
  - unfold ls_state, LS_STATE_ON. lia.
  - unfold ls_state, LS_STATE_BLNK1. lia.
  - unfold ls_offset, BIT_LS_LED0. lia.
  - unfold ls_offset, BIT_LS_LED3. lia.
  - discriminate.
Defined.

(** X3.  Calling [setLsState] twice with the same arguments (a state
    byte and a shift count from 0 to 7) leaves the register as one call
    does, provided the read of the second call delivers its byte. *)
Theorem setLsState_twice_is_once
        (s : World Bus) (p : ptr) (b : Bus) (state regLs lsBit : Z) :
  attached s p b ->
  shift_defined state lsBit ->
  delivered (tail (script b)) = 1%nat ->
  exists s1 s2 b1 b2,
    setLsState state regLs lsBit s = Some (tt, s1)
    /\ setLsState state regLs lsBit s1 = Some (tt, s2)
    /\ wires s1 !! p = Some b1
    /\ wires s2 !! p = Some b2
    /\ regs b2 = regs b1.
Proof.
  intros Hatt _ Hk.
  destruct (chip_setLsState state regLs lsBit s p b Hatt)
    as (s1 & b1 & Hr1 & Hatt1 & _ & Hregs1 & Hsc1).
  destruct (chip_setLsState state regLs lsBit s1 p b1 Hatt1)
    as (s2 & b2 & Hr2 & [[_ Hw2] _] & _ & Hregs2 & _).
  exists s1, s2, b1, b2.
  destruct Hatt1 as [[_ Hw1] _].
  do 4 (split; [assumption |]).
  rewrite Hregs2, (reg_insert b b1 _ _ (u8 regLs) Hregs1).
  destruct (decide (u8 regLs = u8 regLs)) as [_ | Hx]; [| now elim Hx].
  rewrite Hsc1, Hk. unfold read_byte at 1. cbn [Nat.eqb].
  rewrite (u8_small _ (newRegLs_is_u8 _ _ _)), newRegLs_idempotent.
  rewrite Hregs1. apply insert_insert_eq.
Qed.

Lemma setLsState_twice_is_once_witness :
  exists s1 s2 b1 b2,
    setLsState LS_STATE_BLNK0 REG_LS3 BIT_LS_LED13 (begun [0%nat])
    = Some (tt, s1)
    /\ setLsState LS_STATE_BLNK0 REG_LS3 BIT_LS_LED13 s1 = Some (tt, s2)
    /\ wires s1 !! Wire = Some b1
    /\ wires s2 !! Wire = Some b2
    /\ regs b2 = regs b1.
Proof.
  apply (setLsState_twice_is_once (begun [0%nat]) Wire (demo_bus [0%nat])).
  - split; [split |]; reflexivity.
  - unfold shift_defined, is_u8, LS_STATE_BLNK0, BIT_LS_LED13. lia.
  - reflexivity.
Defined.

(** X4.  When the read of [setLsState] fails ([available()] is not 1), the
    byte written is built from 0xFF: the addressed channel gets [state]
    and the three other channels of the register are set to
    [LS_STATE_BLNK1], whatever they were. *)
Theorem setLsState_after_failed_read
        {W : Type} `{TwoWire W} (s : World W) (p : ptr) (w : W)
        (state regLs lsBit : Z) :
  ready s p w ->
  tw_available (bus_select (_deviceAddress (self s)) regLs w) <> 1 ->
  ls_state state -> ls_offset lsBit ->
  exists s' t newReg,
    setLsState state regLs lsBit s = Some (tt, s')
    /\ trace s' = trace s ++ t
    /\ regWrites t = [(regLs, newReg)]
    /\ newReg = newRegLs 0xFF state lsBit
    /\ ls_field newReg lsBit = state
    /\ (forall other, ls_offset other -> other <> lsBit ->
        ls_field newReg other = LS_STATE_BLNK1).
Proof.
  intros Hready Hfail Hs Hb. pose proof Hready as [Hp _].
  pose proof (setLsState_focus state regLs lsBit (self s) (wires s) p w
                (trace s) Hp) as Hrun.
  cbv zeta in Hrun. rewrite <- (ready_focus s p w Hready) in Hrun.
  unfold bus_readReg in Hrun.
  apply Z.eqb_neq in Hfail. rewrite Hfail in Hrun. cbn [fst snd] in Hrun.
  change (u8 (-1)) with 0xFF in Hrun.
  do 3 eexists. split; [exact Hrun |].
  cbn [trace focus]. split; [reflexivity |].
  split; [unfold readTx; rewrite Hfail; reflexivity |].
  split; [reflexivity |].
  split; [apply newRegLs_field; [exact Hs | unfold ls_offset in Hb; lia] |].
  intros other Ho Hne.
  rewrite newRegLs_other_field;
    [| unfold is_u8; lia | exact Hs | unfold ls_offset in Ho; lia
     | unfold ls_offset in Hb, Ho; lia].
  destruct Ho as [-> | [-> | [-> | ->]]]; reflexivity.
Qed.

Lemma setLsState_after_failed_read_witness :
  exists s' t newReg,
    setLsState LS_STATE_ON REG_LS0 BIT_LS_LED1 (begun [0%nat]) = Some (tt, s')
    /\ trace s' = trace (begun [0%nat]) ++ t
    /\ regWrites t = [(REG_LS0, newReg)]
    /\ newReg = newRegLs 0xFF LS_STATE_ON BIT_LS_LED1
    /\ ls_field newReg BIT_LS_LED1 = LS_STATE_ON
    /\ (forall other, ls_offset other -> other <> BIT_LS_LED1 ->
        ls_field newReg other = LS_STATE_BLNK1).
Proof.
  apply (setLsState_after_failed_read
           (begun [0%nat]) Wire (demo_bus [0%nat])).
  - split; reflexivity.
  - vm_compute. discriminate.
  - unfold ls_state, LS_STATE_ON. lia.
  - unfold ls_offset, BIT_LS_LED1. lia.
Defined.

(** X5.  [setPwm] and [setBlinking] write the byte given to the register
    given, one of the writable registers 0x02..0x09: on the chip that
    register holds the byte afterwards, every other register and the
    driver object are unchanged, and the bus sees one write transaction. *)
Theorem setPwm_setBlinking_write_one_register
        (s : World Bus) (p : ptr) (b : Bus) (r v : Z) :
  attached s p b -> writable_reg r -> is_u8 v ->
  exists s' b',
    setPwm r v s = Some (tt, s')
    /\ setBlinking r v s = Some (tt, s')
    /\ self s' = self s
    /\ trace s' = trace s ++ writeTx (_deviceAddress (self s)) r v
    /\ wires s' !! p = Some b'
    /\ Chip.reg b' r = v
    /\ (forall r', r' <> r -> Chip.reg b' r' = Chip.reg b r').
Proof.
  intros Hatt Hwr Hv.
  assert (Hr : is_u8 r) by (unfold writable_reg in Hwr; unfold is_u8; lia).
  destruct (chip_writeReg_run r v s p b Hatt)
    as (s' & b' & Hrun & [[_ Hw] _] & Hself & Htr & Hregs & _).
  rewrite (u8_small r Hr), (u8_small v Hv) in Hregs.
  exists s', b'.
  do 2 (split; [exact Hrun |]).
  do 3 (split; [assumption |]).
  split.
  - rewrite (reg_insert b b' _ _ r Hregs).
    destruct (decide (r = r)) as [_ | Hx]; [reflexivity | now elim Hx].
  - intros r' Hne. rewrite (reg_insert b b' _ _ r' Hregs).
    destruct (decide (r = r')) as [Heq | _]; [now elim Hne | reflexivity].
Qed.

Lemma setPwm_setBlinking_write_one_register_witness :
  exists s' b',
    setPwm REG_PSC0 BLINKING_PERIOD_1_S (begun []) = Some (tt, s')
    /\ setBlinking REG_PSC0 BLINKING_PERIOD_1_S (begun []) = Some (tt, s')
    /\ self s' = self (begun [])
    /\ trace s' = trace (begun []) ++ writeTx 0x60 REG_PSC0 151
    /\ wires s' !! Wire = Some b'
    /\ Chip.reg b' REG_PSC0 = 151
    /\ (forall r', r' <> REG_PSC0 ->
        Chip.reg b' r' = Chip.reg (demo_bus []) r').
Proof.
  apply (setPwm_setBlinking_write_one_register
           (begun []) Wire (demo_bus []) REG_PSC0 BLINKING_PERIOD_1_S).
  - split; [split |]; reflexivity.
  - unfold writable_reg, REG_PSC0. lia.
  - unfold is_u8, BLINKING_PERIOD_1_S. lia.
Defined.

Section Traces.

Context {W : Type} `{TwoWire W}.

(** [turnOff] with its calls spelled out. *)
Lemma turnOff_focus_trace d (m : gmap ptr W) p w t :
  _wire d = Some p ->
  let dev := _deviceAddress d in
  let r0 := bus_readReg dev REG_LS0 w in
  let w0 := bus_writeReg dev REG_LS0 LS_STATE_OFF (snd r0) in
  let r1 := bus_readReg dev REG_LS1 w0 in
  let w1 := bus_writeReg dev REG_LS1 LS_STATE_OFF (snd r1) in
  let r2 := bus_readReg dev REG_LS2 w1 in
  let w2 := bus_writeReg dev REG_LS2 LS_STATE_OFF (snd r2) in
  let r3 := bus_readReg dev REG_LS3 w2 in
  let w3 := bus_writeReg dev REG_LS3 LS_STATE_OFF (snd r3) in
  let rd r x := readTx dev r (tw_available (bus_select dev r x))
                       (fst (tw_read (bus_select dev r x))) in
  turnOff (focus d m p w t) =
  Some (tt,
        focus (mkPCA9532 (_regPwm1 d) (_regPwm2 d)
                         (fst r0) (fst r1) (fst r2) (fst r3)
                         (_deviceAddress d) (_wire d))
              m p w3
              (t ++ rd REG_LS0 w ++ writeTx dev REG_LS0 LS_STATE_OFF
                 ++ rd REG_LS1 w0 ++ writeTx dev REG_LS1 LS_STATE_OFF
                 ++ rd REG_LS2 w1 ++ writeTx dev REG_LS2 LS_STATE_OFF
                 ++ rd REG_LS3 w2 ++ writeTx dev REG_LS3 LS_STATE_OFF)).
Proof.
  intros Hd dev r0 w0 r1 w1 r2 w2 r3 w3 rd. unfold turnOff.
  repeat (first
    [ erewrite bind_Some by (apply readReg_focus; exact Hd)
    | erewrite bind_Some by apply assign_focus
    | erewrite bind_Some by (apply writeReg_focus; exact Hd) ]).
  rewrite writeReg_focus by exact Hd.
  cbn [_deviceAddress _wire _regPwm1 _regPwm2
       _storedRegLs0 _storedRegLs1 _storedRegLs2 _storedRegLs3
       set_storedRegLs0 set_storedRegLs1 set_storedRegLs2 set_storedRegLs3].
  rewrite <- !app_assoc. reflexivity.
Qed.

Lemma TransactionsTo_app (dev : Z) (t1 t2 : list WireCall) :
  TransactionsTo dev t1 -> TransactionsTo dev t2 ->
  TransactionsTo dev (t1 ++ t2).
Proof.
  intros H1 H2. induction H1 as [| r v t _ IH | r n b t _ IH].
  - exact H2.
  - rewrite <- app_assoc. now constructor.
  - rewrite <- app_assoc. now constructor.
Qed.

Lemma TransactionsTo_write (dev r v : Z) : TransactionsTo dev (writeTx dev r v).
Proof.
  rewrite <- (app_nil_r (writeTx dev r v)). apply TxTo_write, TxTo_nil.
Qed.

Lemma TransactionsTo_read (dev r n b : Z) :
  TransactionsTo dev (readTx dev r n b).
Proof.
  rewrite <- (app_nil_r (readTx dev r n b)). apply TxTo_read, TxTo_nil.
Qed.

Lemma TransactionsTo_txAddrs (dev : Z) (t : list WireCall) :
  TransactionsTo dev t -> Forall (eq dev) (txAddrs t).
Proof.
  intros Ht. induction Ht as [| r v t _ IH | r n b t _ IH].
  - constructor.
  - simpl. now constructor.
  - unfold readTx. destruct (n =? 1); simpl; repeat constructor; exact IH.
Qed.

Lemma regWrites_app_write (dev r v : Z) (t : list WireCall) :
  regWrites (writeTx dev r v ++ t) = (r, v) :: regWrites t.
Proof. reflexivity. Qed.

Lemma regWrites_app_read (dev r n b : Z) (t : list WireCall) :
  regWrites (readTx dev r n b ++ t) = regWrites t.
Proof. unfold readTx. destruct (n =? 1); reflexivity. Qed.

Lemma requests_app_write (dev r v : Z) (t : list WireCall) :
  requests (writeTx dev r v ++ t) = requests t.
Proof. reflexivity. Qed.

Lemma requests_app_read (dev r n b : Z) (t : list WireCall) :
  requests (readTx dev r n b ++ t) = S (requests t).
Proof. unfold readTx. destruct (n =? 1); reflexivity. Qed.

(** One call other than [begin], on a begun driver: where its
    transactions go, how many there are, and what it leaves of the driver
    object. *)
Lemma exec_footprint (o : Op) d (m : gmap ptr W) p w t :
  is_begin o = false -> _wire d = Some p ->
  exists d' w' t',
    exec o (focus d m p w t) = Some (tt, focus d' m p w' (t ++ t'))
    /\ _wire d' = _wire d
    /\ _deviceAddress d' = _deviceAddress d
    /\ TransactionsTo (_deviceAddress d) t'
    /\ length (regWrites t') = writes_of o
    /\ requests t' = requests_of o.
Proof.
  intros Hb Hd. destruct o as [a q | | | r v | v | r v | st r b | st];
    try discriminate Hb; cbn [exec writes_of requests_of].
  - exists d; do 2 eexists. split; [now apply turnOn_focus |].
    repeat split.
    repeat apply TransactionsTo_app; apply TransactionsTo_write.
  - do 3 eexists. split; [now apply turnOff_focus_trace |].
    cbn [_wire _deviceAddress]. repeat split.
    + repeat first [apply TxTo_read | apply TxTo_write]. apply TxTo_nil.
    + repeat first [ rewrite regWrites_app_read
                   | rewrite regWrites_app_write ].
      reflexivity.
    + repeat first [ rewrite requests_app_read
                   | rewrite requests_app_write ].
      reflexivity.
  - exists d; do 2 eexists. split; [now apply writeReg_focus |].
    repeat split. apply TransactionsTo_write.
  - exists d; do 2 eexists. split; [now apply setGrpPwm_focus |].
    repeat split.
    repeat apply TransactionsTo_app; apply TransactionsTo_write.
  - exists d; do 2 eexists. split; [now apply writeReg_focus |].
    repeat split. apply TransactionsTo_write.
  - exists d; do 2 eexists. split; [now apply setLsState_focus |].
    repeat split.
    + apply TransactionsTo_app;
        [apply TransactionsTo_read | apply TransactionsTo_write].
    + now rewrite regWrites_app_read.
    + now rewrite requests_app_read.
  - exists d; do 2 eexists. split; [now apply setLsStateAll_focus |].
    repeat split.
    repeat apply TransactionsTo_app; apply TransactionsTo_write.
Qed.

End Traces.

Section Runs.

Context {W : Type} `{TwoWire W}.

(** A sequence of calls without [begin], on a begun driver: it runs, and
    all its transactions are directed to the stored device address, on the
    transport [_wire] points to. *)
Lemma run_footprint (os : list Op) d (m : gmap ptr W) p w t :
  forallb (fun o => negb (is_begin o)) os = true -> _wire d = Some p ->
  exists d' w' t',
    run os (focus d m p w t) = Some (tt, focus d' m p w' (t ++ t'))
    /\ _wire d' = _wire d
    /\ _deviceAddress d' = _deviceAddress d
    /\ TransactionsTo (_deviceAddress d) t'.
Proof.
  revert d w t. induction os as [| o os IH]; intros d w t Hos Hd.
  - exists d, w, []. rewrite app_nil_r. repeat split. apply TxTo_nil.
  - cbn [forallb] in Hos. apply andb_true_iff in Hos as [Ho Hos].
    apply negb_true_iff in Ho.
    destruct (exec_footprint o d m p w t Ho Hd)
      as (d1 & w1 & t1 & Hexec & Hw1 & Ha1 & Ht1 & _).
    destruct (IH d1 w1 (t ++ t1) Hos (eq_trans Hw1 Hd))
      as (d2 & w2 & t2 & Hrun & Hw2 & Ha2 & Ht2).
    exists d2, w2, (t1 ++ t2).
    cbn [run]. rewrite (bind_Some _ _ _ _ _ Hexec), Hrun, app_assoc.
    split; [reflexivity |].
    split; [congruence |]. split; [congruence |].
    apply TransactionsTo_app; [exact Ht1 | now rewrite <- Ha1].
Qed.

End Runs.

(** X6.  The bus traffic of one call: [begin] makes no transaction;
    [turnOn], [setPwm], [setGrpPwm], [setBlinking] and [setLsStateAll]
    make 4, 1, 2, 1 and 4 register writes and never request a read;
    [setLsState] makes one read request and one write; [turnOff] makes
    four read requests and four writes. *)
Theorem bus_traffic_of_each_method
        {W : Type} `{TwoWire W} (o : Op) (s s' : World W) :
  exec o s = Some (tt, s') ->
  exists t,
    trace s' = trace s ++ t
    /\ length (regWrites t) = writes_of o
    /\ requests t = requests_of o.
Proof.
  intros Hexec. pose proof (exec_runnable o s _ Hexec) as Hrun.
  destruct (is_begin o) eqn:Hb.
  - destruct o as [a q | | | | | | |]; try discriminate Hb.
    destruct Hrun as [wq Hq]. cbn [exec] in Hexec.
    rewrite (begin_effect a q s wq Hq) in Hexec. injection Hexec as <-.
    exists [CBegin]. repeat split.
  - assert (Hc : connected s) by (destruct o; try discriminate Hb; exact Hrun).
    destruct Hc as (p & w & Hready). pose proof Hready as [Hp _].
    destruct (exec_footprint o (self s) (wires s) p w (trace s) Hb Hp)
      as (d' & w' & t' & Hexec' & _ & _ & _ & Hwr & Hrq).
    rewrite <- (ready_focus s p w Hready), Hexec in Hexec'.
    injection Hexec' as ->. exists t'. repeat split; assumption.
Qed.

Lemma bus_traffic_of_each_method_witness :
  exists s',
    exec OpTurnOff (begun [0; 1]%nat) = Some (tt, s')
    /\ exists t,
         trace s' = trace (begun [0; 1]%nat) ++ t
         /\ length (regWrites t) = 4%nat
         /\ requests t = 4%nat.
Proof.
  eexists. split; [vm_compute; reflexivity |].
  apply (bus_traffic_of_each_method OpTurnOff (begun [0; 1]%nat)).
  vm_compute. reflexivity.
Defined.

(** X7.  After [begin(a, wire)], every transmission and every read request
    of the calls that follow (until another [begin]; the [setLsState]
    calls with a state byte and a shift count from 0 to 7) is addressed to
    [a] and made on the transport [wire]: the other transports of the
    program are left as they were. *)
Theorem calls_after_begin_use_its_address_and_wire
        {W : Type} `{TwoWire W} (a : Z) (q : ptr) (wq : W) (os : list Op)
        (s : World W) :
  wires s !! q = Some wq ->
  forallb (fun o => negb (is_begin o)) os = true ->
  Forall shifts_defined os ->
  exists s' t,
    run (OpBegin a q :: os) s = Some (tt, s')
    /\ trace s' = trace s ++ CBegin :: t
    /\ Forall (eq a) (txAddrs t)
    /\ _deviceAddress (self s') = a
    /\ _wire (self s') = Some q
    /\ (forall q', q' <> q -> wires s' !! q' = wires s !! q').
Proof.
  intros Hq Hos _.
  set (d0 := set_wire (Some q) (set_deviceAddress a (self s))).
  destruct (run_footprint os d0 (wires s) q (tw_begin wq)
              (trace s ++ [CBegin]) Hos eq_refl)
    as (d' & w' & t' & Hrun & Hw & Ha & Ht).
  do 2 eexists. cbn [run exec].
  rewrite (bind_Some _ _ _ _ _ (begin_effect a q s wq Hq)).
  split; [exact Hrun |]. cbn [trace focus self wires].
  split; [now rewrite <- app_assoc |].
  split; [exact (TransactionsTo_txAddrs _ _ Ht) |].
  split; [exact Ha |]. split; [exact Hw |].
  intros q' Hne. now apply lookup_insert_ne.
Qed.

Lemma calls_after_begin_use_its_address_and_wire_witness :
  exists s' t,
    run [OpBegin 0x62 Wire; OpTurnOff; OpSetLsState 1 REG_LS0 4; OpTurnOn]
        (sketch []) = Some (tt, s')
    /\ trace s' = trace (sketch []) ++ CBegin :: t
    /\ Forall (eq 0x62) (txAddrs t)
    /\ _deviceAddress (self s') = 0x62
    /\ _wire (self s') = Some Wire
    /\ (forall q', q' <> Wire -> wires s' !! q' = wires (sketch []) !! q').
Proof.
  apply (calls_after_begin_use_its_address_and_wire
           0x62 Wire (demo_bus [])
           [OpTurnOff; OpSetLsState 1 REG_LS0 4; OpTurnOn] (sketch [])).
  - reflexivity.
  - reflexivity.
  - repeat constructor; unfold is_u8; lia.
Defined.

Section Constructor.

Context {W : Type} `{TwoWire W}.

Lemma rebuilt_focus (a1 a2 : Z) d (m : gmap ptr W) p w t :
  rebuilt a1 a2 (focus d m p w t) = focus (with_regPwm a1 a2 d) m p w t.
Proof. reflexivity. Qed.

Lemma exec_rebuilt (a1 a2 : Z) (o : Op) (s s' : World W) :
  exec o s = Some (tt, s') ->
  exec o (rebuilt a1 a2 s) = Some (tt, rebuilt a1 a2 s').
Proof.
  intros Hexec. pose proof (exec_runnable o s _ Hexec) as Hrun.
  destruct (is_begin o) eqn:Hb.
  - destruct o as [a q | | | | | | |]; try discriminate Hb.
    destruct Hrun as [wq Hq]. cbn [exec] in *.
    rewrite (begin_effect a q s wq Hq) in Hexec. injection Hexec as <-.
    now rewrite (begin_effect a q (rebuilt a1 a2 s) wq Hq).
  - assert (Hc : connected s) by (destruct o; try discriminate Hb; exact Hrun).
    destruct Hc as (p & w & Hready). pose proof Hready as [Hp _].
    rewrite (ready_focus s p w Hready) in Hexec |- *.
    rewrite rebuilt_focus.
    assert (Hp' : _wire (with_regPwm a1 a2 (self s)) = Some p) by exact Hp.
    destruct o as [a q | | | r v | v | r v | st r b | st];
      try discriminate Hb; cbn [exec] in *.
    + rewrite turnOn_focus in Hexec |- * by assumption.
      injection Hexec as <-. reflexivity.
    + rewrite turnOff_focus_trace in Hexec |- * by assumption.
      injection Hexec as <-. reflexivity.
    + unfold setPwm in *. rewrite writeReg_focus in Hexec |- * by assumption.
      injection Hexec as <-. reflexivity.
    + rewrite setGrpPwm_focus in Hexec |- * by assumption.
      injection Hexec as <-. reflexivity.
    + unfold setBlinking in *.
      rewrite writeReg_focus in Hexec |- * by assumption.
      injection Hexec as <-. reflexivity.
    + rewrite setLsState_focus in Hexec |- * by assumption.
      injection Hexec as <-. reflexivity.
    + rewrite setLsStateAll_focus in Hexec |- * by assumption.
      injection Hexec as <-. reflexivity.
Qed.

Lemma run_rebuilt (a1 a2 : Z) (os : list Op) (s s' : World W) :
  run os s = Some (tt, s') ->
  run os (rebuilt a1 a2 s) = Some (tt, rebuilt a1 a2 s').
Proof.
  revert s. induction os as [| o os IH]; intros s Hrun.
  - injection Hrun as <-. reflexivity.
  - cbn [run] in *. unfold bind in Hrun.
    destruct (exec o s) as [[[] s1] |] eqn:Hexec; [| discriminate].
    rewrite (bind_Some _ _ _ _ _ (exec_rebuilt a1 a2 o s s1 Hexec)).
    now apply IH.
Qed.

End Constructor.

(** X8.  The two arguments of the constructor are stored and never used:
    a program run on an object built with other arguments makes the same
    calls on the bus, leaves the transports in the same state and the
    same saved bytes, address and pointer in the driver. *)
Theorem constructor_arguments_are_never_used
        {W : Type} `{TwoWire W} (storage : PCA9532) (a1 a2 b1 b2 : Z)
        (m : gmap ptr W) (t : list WireCall) (os : list Op) (s' : World W) :
  run os (mkWorld (PCA9532_new storage a1 a2) m t) = Some (tt, s') ->
  exists s'',
    run os (mkWorld (PCA9532_new storage b1 b2) m t) = Some (tt, s'')
    /\ trace s'' = trace s'
    /\ wires s'' = wires s'
    /\ stored (self s'') = stored (self s')
    /\ _deviceAddress (self s'') = _deviceAddress (self s')
    /\ _wire (self s'') = _wire (self s')
    /\ _regPwm1 (self s'') = b1 /\ _regPwm2 (self s'') = b2.
Proof.
  intros Hrun. exists (rebuilt b1 b2 s').
  split; [exact (run_rebuilt b1 b2 os _ s' Hrun) |].
  repeat split.
Qed.

Lemma constructor_arguments_are_never_used_witness :
  exists s',
    run [OpBegin 0x60 Wire; OpSetGrpPwm 9; OpTurnOff]
        (mkWorld (PCA9532_new zero_storage REG_PWM0 REG_PWM1)
                 {[ Wire := demo_bus [] ]} []) = Some (tt, s')
    /\ exists s'',
         run [OpBegin 0x60 Wire; OpSetGrpPwm 9; OpTurnOff]
             (mkWorld (PCA9532_new zero_storage REG_PSC0 0xEE)
                      {[ Wire := demo_bus [] ]} []) = Some (tt, s'')
         /\ trace s'' = trace s'
         /\ wires s'' = wires s'
         /\ stored (self s'') = stored (self s')
         /\ _deviceAddress (self s'') = _deviceAddress (self s')
         /\ _wire (self s'') = _wire (self s')
         /\ _regPwm1 (self s'') = REG_PSC0 /\ _regPwm2 (self s'') = 0xEE.
Proof.
  eexists. split; [vm_compute; reflexivity |].
  apply (constructor_arguments_are_never_used
           zero_storage REG_PWM0 REG_PWM1 REG_PSC0 0xEE
           ({[ Wire := demo_bus [] ]} : gmap ptr Bus) []
           [OpBegin 0x60 Wire; OpSetGrpPwm 9; OpTurnOff]).
  vm_compute. reflexivity.
Defined.

(** ** The chip under [turnOff], [turnOn] and [setLsStateAll] *)

(** One save-and-clear step of [turnOff], whatever the request delivers. *)
Lemma chip_save_and_clear_any (dev r : Z) (b : Bus) :
  slaveAddress b = dev ->
  let rd := bus_readReg dev r b in
  let b' := bus_writeReg dev r LS_STATE_OFF (snd rd) in
  fst rd = read_byte (delivered (script b)) (Chip.reg b (u8 r))
  /\ slaveAddress b' = dev
  /\ regs b' = <[u8 r := 0]> (regs b)
  /\ script b' = tail (script b).
Proof.
  intros Hdev. cbv zeta.
  destruct (chip_readReg_fields dev r b Hdev) as (Ha & Hr & Hs).
  destruct (chip_writeReg_regs dev r LS_STATE_OFF _ Ha) as (Ha' & Hr' & Hs').
  split; [now apply chip_readReg_any |].
  split; [exact Ha' |].
  split; [now rewrite Hr', Hr | now rewrite Hs', Hs].
Qed.

(** [turnOff] on the chip, whatever its reads deliver. *)
Lemma chip_turnOff_any (s : World Bus) (p : ptr) (b : Bus) :
  attached s p b ->
  exists s1 b1,
    turnOff s = Some (tt, s1)
    /\ attached s1 p b1
    /\ regs b1 = <[REG_LS3 := 0]> (<[REG_LS2 := 0]> (<[REG_LS1 := 0]>
                   (<[REG_LS0 := 0]> (regs b))))
    /\ script b1 = tail (tail (tail (tail (script b))))
    /\ stored (self s1) =
       [read_byte (delivered (script b)) (Chip.reg b REG_LS0);
        read_byte (delivered (tail (script b))) (Chip.reg b REG_LS1);
        read_byte (delivered (tail (tail (script b)))) (Chip.reg b REG_LS2);
        read_byte (delivered (tail (tail (tail (script b)))))
                  (Chip.reg b REG_LS3)].
Proof.
  intros [Hready Haddr]. pose proof Hready as [Hp _].
  pose proof (turnOff_focus_trace (self s) (wires s) p b (trace s) Hp) as Hoff.
  cbv zeta in Hoff. rewrite <- (ready_focus s p b Hready) in Hoff.
  rewrite Haddr in Hoff.
  destruct (chip_save_and_clear_any (slaveAddress b) REG_LS0 b eq_refl)
    as (Hv0 & Ha0 & Hr0 & Hs0).
  set (b0 := bus_writeReg _ REG_LS0 _ _) in *.
  destruct (chip_save_and_clear_any (slaveAddress b) REG_LS1 b0 Ha0)
    as (Hv1 & Ha1 & Hr1 & Hs1).
  set (b1 := bus_writeReg _ REG_LS1 _ _) in *.
  destruct (chip_save_and_clear_any (slaveAddress b) REG_LS2 b1 Ha1)
    as (Hv2 & Ha2 & Hr2 & Hs2).
  set (b2 := bus_writeReg _ REG_LS2 _ _) in *.
  destruct (chip_save_and_clear_any (slaveAddress b) REG_LS3 b2 Ha2)
    as (Hv3 & Ha3 & Hr3 & Hs3).
  set (b3 := bus_writeReg _ REG_LS3 _ _) in *.
  eexists. exists b3. split; [exact Hoff |].
  split; [split; [now apply focus_ready | cbn; now rewrite Ha3] |].
  change (u8 REG_LS0) with REG_LS0 in *. change (u8 REG_LS1) with REG_LS1 in *.
  change (u8 REG_LS2) with REG_LS2 in *. change (u8 REG_LS3) with REG_LS3 in *.
  split; [now rewrite Hr3, Hr2, Hr1, Hr0 |].
  split; [now rewrite Hs3, Hs2, Hs1, Hs0 |].
  cbn [self focus stored _storedRegLs0 _storedRegLs1 _storedRegLs2
       _storedRegLs3].
  rewrite Hv0, Hv1, Hv2, Hv3, Hs2, Hs1, Hs0.
  unfold Chip.reg. rewrite Hr2, Hr1, Hr0.
  unfold REG_LS0, REG_LS1, REG_LS2, REG_LS3.
  rewrite !lookup_insert_ne by lia. reflexivity.
Qed.

(** The registers after four writes to LS0..LS3. *)
Lemma ls_regs_written (b b' : Bus) (v0 v1 v2 v3 : Z) :
  regs b' = <[REG_LS3 := v3]> (<[REG_LS2 := v2]> (<[REG_LS1 := v1]>
              (<[REG_LS0 := v0]> (regs b)))) ->
  ls_regs b' = [v0; v1; v2; v3]
  /\ (forall r, r <> REG_LS0 -> r <> REG_LS1 -> r <> REG_LS2 ->
                r <> REG_LS3 -> Chip.reg b' r = Chip.reg b r).
Proof.
  intros Hr. unfold ls_regs, Chip.reg. rewrite Hr.
  unfold REG_LS0, REG_LS1, REG_LS2, REG_LS3. split.
  - repeat (first [ rewrite lookup_insert_eq
                  | rewrite lookup_insert_ne by lia ]).
    reflexivity.
  - intros r H0 H1 H2 H3. now rewrite !lookup_insert_ne by congruence.
Qed.

Lemma chip_turnOn_run (s : World Bus) (p : ptr) (b : Bus) :
  attached s p b ->
  exists s' b',
    turnOn s = Some (tt, s')
    /\ attached s' p b'
    /\ self s' = self s
    /\ regs b' = <[REG_LS3 := u8 (_storedRegLs3 (self s))]>
                   (<[REG_LS2 := u8 (_storedRegLs2 (self s))]>
                      (<[REG_LS1 := u8 (_storedRegLs1 (self s))]>
                         (<[REG_LS0 := u8 (_storedRegLs0 (self s))]>
                            (regs b))))
    /\ script b' = script b.
Proof.
  intros [Hready Haddr]. pose proof Hready as [Hp _].
  destruct (chip_turnOn (self s) (wires s) p b (trace s) Hp Haddr)
    as (t' & Hon).
  rewrite <- (ready_focus s p b Hready) in Hon.
  do 2 eexists. split; [exact Hon |].
  split; [split; [now apply focus_ready | exact Haddr] |].
  repeat split.
Qed.

Lemma chip_setLsStateAll (state : Z) (s : World Bus) (p : ptr) (b : Bus) :
  attached s p b ->
  let v := allLsReg state 6 4 2 0 in
  exists s' b',
    setLsStateAll state s = Some (tt, s')
    /\ attached s' p b'
    /\ self s' = self s
    /\ regs b' = <[REG_LS3 := v]> (<[REG_LS2 := v]> (<[REG_LS1 := v]>
                   (<[REG_LS0 := v]> (regs b))))
    /\ script b' = script b.
Proof.
  intros [Hready Haddr] v. pose proof Hready as [Hp _].
  pose proof (setLsStateAll_focus state (self s) (wires s) p b (trace s) Hp)
    as Hrun.
  cbv zeta in Hrun. rewrite <- (ready_focus s p b Hready) in Hrun.
  rewrite Haddr in Hrun. fold v in Hrun.
  rewrite (chip_writeReg _ REG_LS0 _ b) in Hrun by reflexivity.
  rewrite (chip_writeReg _ REG_LS1) in Hrun by reflexivity.
  rewrite (chip_writeReg _ REG_LS2) in Hrun by reflexivity.
  rewrite (chip_writeReg _ REG_LS3) in Hrun by reflexivity.
  cbn [regs slaveAddress rxBuffer script] in Hrun.
  assert (Hv : u8 v = v) by (unfold v, allLsReg; apply u8_idem).
  rewrite Hv in Hrun.
  do 2 eexists. split; [exact Hrun |].
  split; [split; [now apply focus_ready | exact Haddr] |].
  repeat split.
Qed.

(** X9.  [turnOff] on the chip, whatever its four reads deliver: LS0..LS3
    are 0x00 afterwards, every other register is unchanged, and each saved
    byte is the byte of its register when the read delivered exactly one
    byte and 0xFF otherwise. *)
Theorem turnOff_clears_LS_and_saves_what_it_read
        (s : World Bus) (p : ptr) (b : Bus) :
  attached s p b ->
  exists s' b',
    turnOff s = Some (tt, s')
    /\ wires s' !! p = Some b'
    /\ ls_regs b' = [0; 0; 0; 0]
    /\ (forall r, r <> REG_LS0 -> r <> REG_LS1 -> r <> REG_LS2 ->
                  r <> REG_LS3 -> Chip.reg b' r = Chip.reg b r)
    /\ stored (self s') =
       [read_byte (delivered (script b)) (Chip.reg b REG_LS0);
        read_byte (delivered (tail (script b))) (Chip.reg b REG_LS1);
        read_byte (delivered (tail (tail (script b)))) (Chip.reg b REG_LS2);
        read_byte (delivered (tail (tail (tail (script b)))))
                  (Chip.reg b REG_LS3)].
Proof.
  intros Hatt.
  destruct (chip_turnOff_any s p b Hatt)
    as (s' & b' & Hrun & [[_ Hw] _] & Hregs & _ & Hst).
  destruct (ls_regs_written b b' 0 0 0 0 Hregs) as [Hls Hother].
  exists s', b'. repeat split; assumption.
Qed.

Lemma turnOff_clears_LS_and_saves_what_it_read_witness :
  exists s' b',
    turnOff (begun [1; 0; 2]%nat) = Some (tt, s')
    /\ wires s' !! Wire = Some b'
    /\ ls_regs b' = [0; 0; 0; 0]
    /\ (forall r, r <> REG_LS0 -> r <> REG_LS1 -> r <> REG_LS2 ->
                  r <> REG_LS3 ->
                  Chip.reg b' r = Chip.reg (demo_bus [1; 0; 2]%nat) r)
    /\ stored (self s') = [0x55; 0xFF; 0xFF; 0xFF].
Proof.
  apply (turnOff_clears_LS_and_saves_what_it_read
           (begun [1; 0; 2]%nat) Wire (demo_bus [1; 0; 2]%nat)).
  split; [split |]; reflexivity.
Defined.

(** X10.  [turnOff] followed at once by [turnOn], whatever the reads
    deliver: each LS register ends with the byte it held when its read
    delivered exactly one byte, and with 0xFF when the read failed; every
    other register of the chip is unchanged. *)
Theorem turnOff_then_turnOn_restores_or_writes_0xFF
        (s : World Bus) (p : ptr) (b : Bus) :
  attached s p b ->
  exists s' b',
    (turnOff ;;; turnOn) s = Some (tt, s')
    /\ wires s' !! p = Some b'
    /\ ls_regs b' =
       [read_byte (delivered (script b)) (Chip.reg b REG_LS0);
        read_byte (delivered (tail (script b))) (Chip.reg b REG_LS1);
        read_byte (delivered (tail (tail (script b)))) (Chip.reg b REG_LS2);
        read_byte (delivered (tail (tail (tail (script b)))))
                  (Chip.reg b REG_LS3)]
    /\ (forall r, r <> REG_LS0 -> r <> REG_LS1 -> r <> REG_LS2 ->
                  r <> REG_LS3 -> Chip.reg b' r = Chip.reg b r).
Proof.
  intros Hatt.
  destruct (chip_turnOff_any s p b Hatt)
    as (s1 & b1 & Hoff & Hatt1 & Hregs1 & _ & Hst).
  destruct (chip_turnOn_run s1 p b1 Hatt1)
    as (s2 & b2 & Hon & [[_ Hw2] _] & _ & Hregs2 & _).
  exists s2, b2. rewrite (bind_Some _ _ _ _ _ Hoff).
  split; [exact Hon |]. split; [exact Hw2 |].
  unfold stored in Hst. injection Hst as E0 E1 E2 E3.
  rewrite E0, E1, E2, E3 in Hregs2.
  rewrite !(u8_small _ (read_byte_is_u8 _ _)) in Hregs2.
  destruct (ls_regs_written b1 b2 _ _ _ _ Hregs2) as [Hls Hother2].
  destruct (ls_regs_written b b1 _ _ _ _ Hregs1) as [_ Hother1].
  split; [exact Hls |].
  intros r H0 H1 H2 H3. rewrite Hother2, Hother1 by assumption. reflexivity.
Qed.

Lemma turnOff_then_turnOn_restores_or_writes_0xFF_witness :
  exists s' b',
    (turnOff ;;; turnOn) (begun [1; 0; 1; 3]%nat) = Some (tt, s')
    /\ wires s' !! Wire = Some b'
    /\ ls_regs b' = [0x55; 0xFF; 0x03; 0xFF]
    /\ (forall r, r <> REG_LS0 -> r <> REG_LS1 -> r <> REG_LS2 ->
                  r <> REG_LS3 ->
                  Chip.reg b' r = Chip.reg (demo_bus [1; 0; 1; 3]%nat) r).
Proof.
  apply (turnOff_then_turnOn_restores_or_writes_0xFF
           (begun [1; 0; 1; 3]%nat) Wire (demo_bus [1; 0; 1; 3]%nat)).
  split; [split |]; reflexivity.
Defined.

Lemma allLsReg_fields (state lsBit : Z) :
  ls_state state -> ls_offset lsBit ->
  ls_field (allLsReg state 6 4 2 0) lsBit = state.
Proof.
  unfold ls_state, ls_offset. intros Hs Hb.
  assert (state = 0 \/ state = 1 \/ state = 2 \/ state = 3)
    as [-> | [-> | [-> | ->]]] by lia;
    destruct Hb as [-> | [-> | [-> | ->]]]; reflexivity.
Qed.

(** X11.  After [setLsStateAll(state)] with a state in 0..3, each of the
    sixteen channels holds [state]: every two-bit field of LS0..LS3 on the
    chip.  The other registers and the driver object are unchanged, and
    what the registers held before plays no part. *)
Theorem setLsStateAll_sets_every_channel
        (s : World Bus) (p : ptr) (b : Bus) (state : Z) :
  attached s p b -> ls_state state ->
  exists s' b',
    setLsStateAll state s = Some (tt, s')
    /\ wires s' !! p = Some b'
    /\ self s' = self s
    /\ Forall (fun reg => forall lsBit, ls_offset lsBit ->
                                        ls_field reg lsBit = state)
              (ls_regs b')
    /\ (forall r, r <> REG_LS0 -> r <> REG_LS1 -> r <> REG_LS2 ->
                  r <> REG_LS3 -> Chip.reg b' r = Chip.reg b r).
Proof.
  intros Hatt Hs.
  destruct (chip_setLsStateAll state s p b Hatt)
    as (s' & b' & Hrun & [[_ Hw] _] & Hself & Hregs & _).
  destruct (ls_regs_written b b' _ _ _ _ Hregs) as [Hls Hother].
  exists s', b'. do 3 (split; [assumption |]).
  split; [| exact Hother].
  rewrite Hls. repeat constructor; intros lsBit Hb;
    now apply allLsReg_fields.
Qed.

Lemma setLsStateAll_sets_every_channel_witness :
  exists s' b',
    setLsStateAll LS_STATE_BLNK0 (begun []) = Some (tt, s')
    /\ wires s' !! Wire = Some b'
    /\ self s' = self (begun [])
    /\ Forall (fun reg => forall lsBit, ls_offset lsBit ->
                                        ls_field reg lsBit = LS_STATE_BLNK0)
              (ls_regs b')
    /\ (forall r, r <> REG_LS0 -> r <> REG_LS1 -> r <> REG_LS2 ->
                  r <> REG_LS3 -> Chip.reg b' r = Chip.reg (demo_bus []) r).
Proof.
  apply (setLsStateAll_sets_every_channel (begun []) Wire (demo_bus [])).
  - split; [split |]; reflexivity.
  - unfold ls_state, LS_STATE_BLNK0. lia.
Defined.

(** [readReg] on the chip. *)
Lemma chip_readReg_run (r : Z) (s : World Bus) (p : ptr) (b : Bus) :
  attached s p b ->
  exists s' b',
    readReg r s =
    Some (read_byte (delivered (script b)) (Chip.reg b (u8 r)), s')
    /\ attached s' p b'
    /\ self s' = self s
    /\ regs b' = regs b.
Proof.
  intros [Hready Haddr]. pose proof Hready as [Hp _].
  pose proof (readReg_focus r (self s) (wires s) p b (trace s) Hp) as Hrun.
  cbv zeta in Hrun. rewrite <- (ready_focus s p b Hready) in Hrun.
  rewrite Haddr in Hrun.
  rewrite (chip_readReg_any (slaveAddress b) r b eq_refl) in Hrun.
  destruct (chip_readReg_fields (slaveAddress b) r b eq_refl)
    as (Ha & Hr & _).
  do 2 eexists. split; [exact Hrun |].
  split; [split; [now apply focus_ready | cbn; now rewrite Ha] |].
  split; [reflexivity | exact Hr].
Qed.

(** X12.  One of the writable registers 0x02..0x09, written by [writeReg],
    reads back by [readReg] as the byte written, when the read delivers
    exactly one byte; reading changes no register of the chip and
    nothing in the driver object. *)
Theorem writeReg_then_readReg_returns_the_byte
        (s : World Bus) (p : ptr) (b : Bus) (r v : Z) :
  attached s p b -> writable_reg r -> is_u8 v ->
  delivered (script b) = 1%nat ->
  exists s1 s2 b1 b2,
    writeReg r v s = Some (tt, s1)
    /\ readReg r s1 = Some (v, s2)
    /\ wires s1 !! p = Some b1
    /\ wires s2 !! p = Some b2
    /\ regs b2 = regs b1
    /\ self s2 = self s.
Proof.
  intros Hatt _ Hv Hk.
  destruct (chip_writeReg_run r v s p b Hatt)
    as (s1 & b1 & Hwr & Hatt1 & Hself1 & _ & Hregs1 & Hsc1).
  destruct (chip_readReg_run r s1 p b1 Hatt1)
    as (s2 & b2 & Hrd & [[_ Hw2] _] & Hself2 & Hregs2).
  exists s1, s2, b1, b2.
  split; [exact Hwr |].
  rewrite Hsc1, Hk in Hrd. unfold read_byte in Hrd. cbn [Nat.eqb] in Hrd.
  rewrite (reg_insert b b1 _ _ (u8 r) Hregs1) in Hrd.
  destruct (decide (u8 r = u8 r)) as [_ | Hx]; [| now elim Hx].
  rewrite u8_idem, (u8_small v Hv) in Hrd.
  split; [exact Hrd |].
  destruct Hatt1 as [[_ Hw1] _].
  repeat split; try assumption. congruence.
Qed.

Lemma writeReg_then_readReg_returns_the_byte_witness :
  exists s1 s2 b1 b2,
    writeReg REG_PWM1 0x40 (begun []) = Some (tt, s1)
    /\ readReg REG_PWM1 s1 = Some (0x40, s2)
    /\ wires s1 !! Wire = Some b1
    /\ wires s2 !! Wire = Some b2
    /\ regs b2 = regs b1
    /\ self s2 = self (begun []).
Proof.
  apply (writeReg_then_readReg_returns_the_byte
           (begun []) Wire (demo_bus []) REG_PWM1 0x40).
  - split; [split |]; reflexivity.
  - unfold writable_reg, REG_PWM1. lia.
  - unfold is_u8. lia.
  - reflexivity.
Defined.

(** A byte whose four channels are set one after the other is the byte
    [setLsStateAll] builds. *)
Lemma newRegLs_four_times (prevReg state : Z) :
  ls_state state ->
  newRegLs (newRegLs (newRegLs (newRegLs prevReg state 0) state 2) state 4)
           state 6 =
  allLsReg state 6 4 2 0.
Proof.
  intros Hs. apply Z.bits_inj'. intros n Hn.
  rewrite !newRegLs_bit, !testbit_mask by lia.
  unfold allLsReg. rewrite testbit_u8.
  destruct (Z.ltb_spec n 8) as [Hlt | Hge]; [| reflexivity].
  cbn [andb].
  unfold ls_state in Hs.
  assert (n = 0 \/ n = 1 \/ n = 2 \/ n = 3 \/ n = 4 \/ n = 5 \/ n = 6 \/ n = 7)
    as Hcases by lia.
  assert (state = 0 \/ state = 1 \/ state = 2 \/ state = 3) as Hst by lia.
  destruct Hst as [-> | [-> | [-> | ->]]];
    destruct Hcases as [-> | [-> | [-> | [-> | [-> | [-> | [-> | ->]]]]]]];
    cbn [Z.sub Z.opp Z.add Z.pos_sub Pos.pred_double Z.double Z.succ_double
         Z.pred_double Pos.succ];
    repeat match goal with
           | |- context [Z.testbit ?a ?k] =>
               lazymatch a with
               | prevReg => fail
               | _ => let v := eval vm_compute in (Z.testbit a k) in
                      change (Z.testbit a k) with v
               end
           end;
    cbn [negb]; rewrite ?andb_false_r, ?andb_true_r, ?orb_true_r, ?orb_false_r;
    reflexivity.
Qed.

Lemma deliver_one_delivered (sc : list nat) :
  deliver_one 1 sc = true -> delivered sc = 1%nat.
Proof.
  destruct sc as [| k sc]; [reflexivity |]. simpl. rewrite andb_true_r.
  now intros Hk%Nat.eqb_eq.
Qed.

(** One more [setLsState] on a register whose content is known. *)
Lemma chip_setLsState_next (state regLs lsBit v : Z) (s : World Bus)
      (p : ptr) (b : Bus) :
  attached s p b ->
  delivered (script b) = 1%nat ->
  Chip.reg b (u8 regLs) = v -> is_u8 v ->
  exists s' b',
    setLsState state regLs lsBit s = Some (tt, s')
    /\ attached s' p b'
    /\ Chip.reg b' (u8 regLs) = newRegLs v state lsBit
    /\ script b' = tail (script b).
Proof.
  intros Hatt Hk Hv Hu.
  destruct (chip_setLsState state regLs lsBit s p b Hatt)
    as (s' & b' & Hrun & Hatt' & _ & Hregs & Hsc).
  exists s', b'. split; [exact Hrun |]. split; [exact Hatt' |].
  split; [| exact Hsc].
  rewrite (reg_insert b b' _ _ (u8 regLs) Hregs).
  destruct (decide (u8 regLs = u8 regLs)) as [_ | Hx]; [| now elim Hx].
  rewrite Hk, Hv. unfold read_byte. cbn [Nat.eqb]. now rewrite (u8_small v Hu).
Qed.

(** X13.  Setting the four channels of one LS register to the same state
    by four calls of [setLsState] (offsets 0, 2, 4, 6) leaves in the
    register the byte [setLsStateAll] writes for that state, whatever the
    register held and whatever the first read delivered; the three later
    reads must deliver their byte. *)
Theorem four_setLsState_calls_build_the_setLsStateAll_byte
        (s : World Bus) (p : ptr) (b : Bus) (state regLs : Z) :
  attached s p b -> is_u8 regLs -> ls_state state ->
  deliver_one 3 (tail (script b)) = true ->
  exists s' b',
    (setLsState state regLs BIT_LS_LED0 ;;;
     setLsState state regLs BIT_LS_LED1 ;;;
     setLsState state regLs BIT_LS_LED2 ;;;
     setLsState state regLs BIT_LS_LED3) s = Some (tt, s')
    /\ wires s' !! p = Some b'
    /\ Chip.reg b' regLs =
       allLsReg state BIT_LS_LED3 BIT_LS_LED2 BIT_LS_LED1 BIT_LS_LED0.
Proof.
  intros Hatt Hr Hs Hsc.
  destruct (chip_setLsState state regLs BIT_LS_LED0 s p b Hatt)
    as (s0 & b0 & Hrun0 & Hatt0 & _ & Hregs0 & Hsc0).
  pose proof (reg_insert b b0 _ _ (u8 regLs) Hregs0) as Hv0.
  destruct (decide (u8 regLs = u8 regLs)) as [_ | Hx]; [| now elim Hx].
  rewrite <- Hsc0 in Hsc.
  apply deliver_one_S in Hsc as [Hk1%deliver_one_delivered Hsc].
  destruct (chip_setLsState_next state regLs BIT_LS_LED1 _ s0 p b0
              Hatt0 Hk1 Hv0 (newRegLs_is_u8 _ _ _))
    as (s1 & b1 & Hrun1 & Hatt1 & Hv1 & Hsc1).
  rewrite <- Hsc1 in Hsc.
  apply deliver_one_S in Hsc as [Hk2%deliver_one_delivered Hsc].
  destruct (chip_setLsState_next state regLs BIT_LS_LED2 _ s1 p b1
              Hatt1 Hk2 Hv1 (newRegLs_is_u8 _ _ _))
    as (s2 & b2 & Hrun2 & Hatt2 & Hv2 & Hsc2).
  rewrite <- Hsc2 in Hsc.
  apply deliver_one_S in Hsc as [Hk3%deliver_one_delivered _].
  destruct (chip_setLsState_next state regLs BIT_LS_LED3 _ s2 p b2
              Hatt2 Hk3 Hv2 (newRegLs_is_u8 _ _ _))
    as (s3 & b3 & Hrun3 & [[_ Hw3] _] & Hv3 & _).
  exists s3, b3.
  rewrite (bind_Some _ _ _ _ _ Hrun0), (bind_Some _ _ _ _ _ Hrun1),
    (bind_Some _ _ _ _ _ Hrun2).
  split; [exact Hrun3 |]. split; [exact Hw3 |].
  rewrite (u8_small regLs Hr) in Hv3. rewrite Hv3.
  now apply newRegLs_four_times.
Qed.

Lemma four_setLsState_calls_build_the_setLsStateAll_byte_witness :
  exists s' b',
    (setLsState LS_STATE_ON REG_LS2 BIT_LS_LED0 ;;;
     setLsState LS_STATE_ON REG_LS2 BIT_LS_LED1 ;;;
     setLsState LS_STATE_ON REG_LS2 BIT_LS_LED2 ;;;
     setLsState LS_STATE_ON REG_LS2 BIT_LS_LED3) (begun [0%nat])
    = Some (tt, s')
    /\ wires s' !! Wire = Some b'
    /\ Chip.reg b' REG_LS2 =
       allLsReg LS_STATE_ON BIT_LS_LED3 BIT_LS_LED2 BIT_LS_LED1 BIT_LS_LED0.
Proof.
  apply (four_setLsState_calls_build_the_setLsStateAll_byte
           (begun [0%nat]) Wire (demo_bus [0%nat])).
  - split; [split |]; reflexivity.
  - unfold is_u8, REG_LS2. lia.
  - unfold ls_state, LS_STATE_ON. lia.
  - reflexivity.
Defined.
